(** * ParallelLLM: the fan-out / fan-in coordinator of mcp_agent

    A shallow embedding of
    [src/mcp_agent/workflows/parallel/parallel_llm.py].

    The coordinator is a Python object: its attributes live in a
    dictionary from attribute names to values, reading an attribute that
    was never assigned raises [AttributeError], and every method is a
    computation that may raise.  The collaborators the class consumes
    (the [AugmentedLLM] base class, [FanInLLM], the fan-out stage, the
    reduction callable, the builtin [str]) are not part of the file; they
    are an interface ([Collaborators]) the development is parametric in.
    Each call into a collaborator is recorded in a call log, which is
    what the statements about "who was invoked, with what, in which
    order" are about. *)

From Stdlib Require Import ZArith List Permutation.
From stdpp Require Import gmap strings list fin_maps pretty.

Open Scope string_scope.
Open Scope list_scope.

(** ** Python values *)

#[warnings="-register-all"]
Inductive PyVal : Type :=
| PyNone
| PyBool (b : bool)
| PyInt (n : Z)
| PyStr (s : string)
| PyList (xs : list PyVal)
| PyFunc (name : string)
    (* a plain function or coroutine function *)
| PyInstance (cls : string) (oid : nat) (has_call : bool) (truth : bool)
    (* an instance of a class outside this file (an Agent, an LLM, a
       pydantic model, ...): whether its class defines [__call__], and
       what [bool(x)] gives *)
| PyFanInLLM (aggregator_agent llm_factory executor : PyVal)
| PyFanOut (agents functions llm_factory executor : PyVal).

(** [isinstance(v, Callable)] *)
Definition is_callable (v : PyVal) : bool :=
  match v with
  | PyFunc _ => true
  | PyInstance _ _ has_call _ => has_call
  | _ => false
  end.

(** The truth value Python's [if v:] tests. *)
Definition truthy (v : PyVal) : bool :=
  match v with
  | PyNone => false
  | PyBool b => b
  | PyInt n => negb (n =? 0)%Z
  | PyStr s => negb (String.eqb s "")
  | PyList xs => match xs with [] => false | _ => true end
  | PyFunc _ => true
  | PyInstance _ _ _ truth => truth
  | PyFanInLLM _ _ _ => true
  | PyFanOut _ _ _ _ => true
  end.

Definition is_str (v : PyVal) : bool :=
  match v with PyStr _ => true | _ => false end.

(** The elements of an optional list argument ([List[...] | None]). *)
Definition py_items (v : PyVal) : list PyVal :=
  match v with PyList xs => xs | _ => [] end.

(** ** Exceptions and results *)

Inductive PyExc : Type :=
| AttributeError (attr : string)
| TypeError
| ConfigurationError
| UnitFailure (code : nat).

Inductive PyResult (A : Type) : Type :=
| Ok (a : A)
| Raise (e : PyExc).
Arguments Ok {A} a.
Arguments Raise {A} e.

(** ** Generation parameters

    The six keyword arguments every generation call takes. *)

Record GenParams : Type := mkGenParams {
  use_history : bool;
  max_iterations : Z;
  model : option string;
  stop_sequences : option (list string);
  max_tokens : Z;
  parallel_tool_calls : bool
}.

Definition default_params : GenParams :=
  {| use_history := true; max_iterations := 10; model := None;
     stop_sequences := None; max_tokens := 2048;
     parallel_tool_calls := true |}.

(** ** Calls into the collaborators *)

Inductive Event : Type :=
| FanOutGenerate (fan_out message : PyVal) (params : GenParams)
| FanInFnCall (fn : PyVal) (responses : list PyVal)
| FanInGenerate (fan_in : PyVal) (messages : list PyVal) (params : GenParams)
| FanInGenerateStr (fan_in : PyVal) (messages : list PyVal)
    (params : GenParams)
| FanInGenerateStructured (fan_in : PyVal) (messages : list PyVal)
    (response_model : PyVal) (params : GenParams).

(** Is the event an invocation of the fan-in side (function or unit)? *)
Definition is_fan_in (ev : Event) : bool :=
  match ev with FanOutGenerate _ _ _ => false | _ => true end.

(** Is the event an invocation of the aggregator unit? *)
Definition is_aggregator (ev : Event) : bool :=
  match ev with
  | FanInGenerate _ _ _ | FanInGenerateStr _ _ _
  | FanInGenerateStructured _ _ _ _ => true
  | _ => false
  end.

(** What a fan-in invocation received as its input. *)
Definition combine_input (ev : Event) : option (list PyVal) :=
  match ev with
  | FanOutGenerate _ _ _ => None
  | FanInFnCall _ r => Some r
  | FanInGenerate _ r _ => Some r
  | FanInGenerateStr _ r _ => Some r
  | FanInGenerateStructured _ r _ _ => Some r
  end.

(** The generation parameters an invocation carried, if it carries any
    (the reduction function is called with the responses only). *)
Definition event_params (ev : Event) : option GenParams :=
  match ev with
  | FanOutGenerate _ _ p => Some p
  | FanInFnCall _ _ => None
  | FanInGenerate _ _ p => Some p
  | FanInGenerateStr _ _ p => Some p
  | FanInGenerateStructured _ _ _ p => Some p
  end.

(** ** The collaborators

    [World] is whatever state the collaborators keep for themselves (a
    unit's own conversation history, provider state, ...). *)

Class Collaborators (World : Type) : Type := {
  (* [super().__init__(executor=executor)]: the attributes the base class
     leaves on the instance *)
  AugmentedLLM_init :
    PyVal -> gmap string PyVal -> PyResult (gmap string PyVal);
  (* [FanInLLM(aggregator_agent=.., llm_factory=.., executor=..)] *)
  FanInLLM_new : PyVal -> PyVal -> PyVal -> PyResult PyVal;
  (* [await fan_out.generate(message=.., <params>)] *)
  fan_out_generate :
    PyVal -> PyVal -> GenParams -> World -> PyResult (list PyVal) * World;
  (* [await fn(responses)]: the call and the await of what it returns
     (a return value that cannot be awaited is a [TypeError]) *)
  call_await :
    PyVal -> list PyVal -> World -> PyResult PyVal * World;
  (* [await fan_in.generate(messages=.., <params>)] and its two siblings *)
  fan_in_generate :
    PyVal -> list PyVal -> GenParams -> World -> PyResult PyVal * World;
  fan_in_generate_str :
    PyVal -> list PyVal -> GenParams -> World -> PyResult PyVal * World;
  fan_in_generate_structured :
    PyVal -> list PyVal -> PyVal -> GenParams -> World ->
    PyResult PyVal * World;
  (* the builtin [str(v)] *)
  builtin_str : PyVal -> PyResult string
}.

(** Modelled from the spec: the constructor of the fan-out stage
    ([mcp_agent.workflows.parallel.fan_out.FanOut], not among the source
    files).  "At least one Generation Unit must be configured (agents
    and/or functions); configuring zero units is a caller error", and the
    error kind is ConfigurationError. *)
Definition FanOut_new (agents functions llm_factory executor : PyVal)
  : PyResult PyVal :=
  match py_items agents ++ py_items functions with
  | [] => Raise ConfigurationError
  | _ :: _ => Ok (PyFanOut agents functions llm_factory executor)
  end.

(** ** The state and the computation monad *)

Record State (World : Type) : Type := mkState {
  self_attrs : gmap string PyVal;   (* the instance's attributes *)
  world : World;
  calls : list Event                (* the call log, oldest first *)
}.
Arguments mkState {World}.
Arguments self_attrs {World}.
Arguments world {World}.
Arguments calls {World}.

Definition M (World A : Type) : Type :=
  State World -> PyResult A * State World.

Definition ret {W A} (a : A) : M W A := fun st => (Ok a, st).

Definition bind {W A B} (m : M W A) (k : A -> M W B) : M W B :=
  fun st =>
    match m st with
    | (Ok a, st') => k a st'
    | (Raise e, st') => (Raise e, st')
    end.

Notation "'let*' x ':=' m 'in' k" := (bind m (fun x => k))
  (at level 10, x name, m at level 100, k at level 200).
Notation "m ';;' k" := (bind m (fun _ => k))
  (at level 100, k at level 200, right associativity).

Definition lift {W A} (r : PyResult A) : M W A := fun st => (r, st).

(** [self.name] *)
Definition getattr {W} (name : string) : M W PyVal :=
  fun st =>
    match self_attrs st !! name with
    | Some v => (Ok v, st)
    | None => (Raise (AttributeError name), st)
    end.

(** [self.name = v] *)
Definition setattr {W} (name : string) (v : PyVal) : M W unit :=
  fun st =>
    (Ok tt, mkState (<[name := v]> (self_attrs st)) (world st) (calls st)).

(** An invocation of a collaborator: logged, then run on the world. *)
Definition invoke {W A} (ev : Event)
  (f : W -> PyResult A * W) : M W A :=
  fun st =>
    let (r, w) := f (world st) in
    (r, mkState (self_attrs st) w (calls st ++ [ev])).

(** The calls a computation added to the log. *)
Definition new_calls {W} (before after : State W) : list Event :=
  drop (length (calls before)) (calls after).

Section ParallelLLM.

Context {World : Type} `{C : Collaborators World}.

Abbreviation St := (State World).
Abbreviation Comp := (M World).

(** [super().__init__(executor=executor)] *)
Definition super_init (executor : PyVal) : Comp unit :=
  fun st =>
    match AugmentedLLM_init executor (self_attrs st) with
    | Ok attrs => (Ok tt, mkState attrs (world st) (calls st))
    | Raise e => (Raise e, st)
    end.

(** [ParallelLLM.__init__] *)
Definition ParallelLLM_init
  (fan_in_agent fan_out_agents fan_out_functions llm_factory
     executor : PyVal) : Comp unit :=
  super_init executor ;;
  setattr "llm_factory" llm_factory ;;
  setattr "fan_in_agent" fan_in_agent ;;
  setattr "fan_out_agents" fan_out_agents ;;
  setattr "fan_out_functions" fan_out_functions ;;
  setattr "history" PyNone ;;
  (if is_callable fan_in_agent then
     setattr "fan_in_fn" fan_in_agent
   else
     let* fan_in := lift (FanInLLM_new fan_in_agent llm_factory executor) in
     setattr "fan_in" fan_in) ;;
  let* fan_out :=
    lift (FanOut_new fan_out_agents fan_out_functions llm_factory executor) in
  setattr "fan_out" fan_out.

(** [ParallelLLM(...)]: [__init__] on a fresh instance. *)
Definition ParallelLLM_new
  (fan_in_agent fan_out_agents fan_out_functions llm_factory
     executor : PyVal) (w : World) : PyResult unit * St :=
  ParallelLLM_init fan_in_agent fan_out_agents fan_out_functions
    llm_factory executor (mkState ∅ w []).

(** [await self.fan_out.generate(message=message, ...)] *)
Definition dispatch (message : PyVal) (p : GenParams)
  : Comp (list PyVal) :=
  let* fan_out := getattr "fan_out" in
  invoke (FanOutGenerate fan_out message p)
         (fan_out_generate fan_out message p).

(** [await self.fan_in_fn(responses)] *)
Definition reduce (responses : list PyVal) : Comp PyVal :=
  let* fn := getattr "fan_in_fn" in
  invoke (FanInFnCall fn responses) (call_await fn responses).

(** [ParallelLLM.generate] *)
Definition generate (message : PyVal)
  (use_history : bool) (max_iterations : Z) (model : option string)
  (stop_sequences : option (list string)) (max_tokens : Z)
  (parallel_tool_calls : bool) : Comp PyVal :=
  (* First, we fan-out *)
  let* responses :=
    dispatch message
      (mkGenParams use_history max_iterations model stop_sequences
         max_tokens parallel_tool_calls) in
  (* Then, we fan-in *)
  let* fn := getattr "fan_in_fn" in
  if truthy fn then
    let* result := reduce responses in
    ret result
  else
    let* fan_in := getattr "fan_in" in
    let p := mkGenParams use_history max_iterations model stop_sequences
               max_tokens parallel_tool_calls in
    let* result :=
      invoke (FanInGenerate fan_in responses p)
             (fan_in_generate fan_in responses p) in
    ret result.

(** [ParallelLLM.generate_str] *)
Definition generate_str (message : PyVal)
  (use_history : bool) (max_iterations : Z) (model : option string)
  (stop_sequences : option (list string)) (max_tokens : Z)
  (parallel_tool_calls : bool) : Comp PyVal :=
  let* responses :=
    dispatch message
      (mkGenParams use_history max_iterations model stop_sequences
         max_tokens parallel_tool_calls) in
  let* fn := getattr "fan_in_fn" in
  if truthy fn then
    let* raw := reduce responses in
    let* s := lift (builtin_str raw) in
    ret (PyStr s)
  else
    let* fan_in := getattr "fan_in" in
    let p := mkGenParams use_history max_iterations model stop_sequences
               max_tokens parallel_tool_calls in
    let* result :=
      invoke (FanInGenerateStr fan_in responses p)
             (fan_in_generate_str fan_in responses p) in
    ret result.

(** [ParallelLLM.generate_structured] *)
Definition generate_structured (message response_model : PyVal)
  (use_history : bool) (max_iterations : Z) (model : option string)
  (stop_sequences : option (list string)) (max_tokens : Z)
  (parallel_tool_calls : bool) : Comp PyVal :=
  let* responses :=
    dispatch message
      (mkGenParams use_history max_iterations model stop_sequences
         max_tokens parallel_tool_calls) in
  let* fn := getattr "fan_in_fn" in
  if truthy fn then
    let* result := reduce responses in
    ret result
  else
    let* fan_in := getattr "fan_in" in
    let p := mkGenParams use_history max_iterations model stop_sequences
               max_tokens parallel_tool_calls in
    let* result :=
      invoke (FanInGenerateStructured fan_in responses response_model p)
             (fan_in_generate_structured fan_in responses response_model p) in
    ret result.

(** The three public operations, as one entry point. *)
Inductive Mode : Type :=
| Raw
| Text
| Structured (response_model : PyVal).

Definition run (mode : Mode) (message : PyVal) (p : GenParams)
  : Comp PyVal :=
  match mode with
  | Raw =>
      generate message (use_history p) (max_iterations p) (model p)
        (stop_sequences p) (max_tokens p) (parallel_tool_calls p)
  | Text =>
      generate_str message (use_history p) (max_iterations p) (model p)
        (stop_sequences p) (max_tokens p) (parallel_tool_calls p)
  | Structured response_model =>
      generate_structured message response_model (use_history p)
        (max_iterations p) (model p) (stop_sequences p) (max_tokens p)
        (parallel_tool_calls p)
  end.

(** The aggregator unit's generation mode that corresponds to [mode]:
    the event it is logged as, and the collaborator that serves it. *)
Definition aggregator_event (mode : Mode) (fan_in : PyVal)
  (responses : list PyVal) (p : GenParams) : Event :=
  match mode with
  | Raw => FanInGenerate fan_in responses p
  | Text => FanInGenerateStr fan_in responses p
  | Structured rm => FanInGenerateStructured fan_in responses rm p
  end.

Definition aggregator_call (mode : Mode) (fan_in : PyVal)
  (responses : list PyVal) (p : GenParams)
  : World -> PyResult PyVal * World :=
  match mode with
  | Raw => fan_in_generate fan_in responses p
  | Text => fan_in_generate_str fan_in responses p
  | Structured rm => fan_in_generate_structured fan_in responses rm p
  end.

(** What each mode does to the value the reduction function gave. *)
Definition reduced (mode : Mode) (r : PyResult PyVal) : PyResult PyVal :=
  match mode, r with
  | Text, Ok raw =>
      match builtin_str raw with
      | Ok s => Ok (PyStr s)
      | Raise e => Raise e
      end
  | _, _ => r
  end.

(** A sequence of calls on one instance; failures of one call do not
    stop the next. *)
Record Call : Type := mkCall {
  call_mode : Mode;
  call_message : PyVal;
  call_params : GenParams
}.

Fixpoint run_calls (cs : list Call) (st : St) : St :=
  match cs with
  | [] => st
  | c :: cs' =>
      run_calls cs' (snd (run (call_mode c) (call_message c)
                            (call_params c) st))
  end.

(** [I] holds of the collaborators' world after any of their calls if it
    held before. *)
Definition collaborators_preserve (I : World -> Prop) : Prop :=
  (forall fo m p w, I w -> I (snd (fan_out_generate fo m p w))) /\
  (forall fn rs w, I w -> I (snd (call_await fn rs w))) /\
  (forall mode fi rs p w, I w -> I (snd (aggregator_call mode fi rs p w))).

(** The courses one call can take, with the result and the state each
    one ends in. *)
Inductive Course (mode : Mode) (m : PyVal) (p : GenParams) (st : St)
  : PyResult PyVal * St -> Prop :=
| NoFanOut :
    self_attrs st !! "fan_out" = None ->
    Course mode m p st (Raise (AttributeError "fan_out"), st)
| DispatchRaised fo e w :
    self_attrs st !! "fan_out" = Some fo ->
    fan_out_generate fo m p (world st) = (Raise e, w) ->
    Course mode m p st
      (Raise e,
       mkState (self_attrs st) w (calls st ++ [FanOutGenerate fo m p]))
| NoFanInFn fo responses w :
    self_attrs st !! "fan_out" = Some fo ->
    fan_out_generate fo m p (world st) = (Ok responses, w) ->
    self_attrs st !! "fan_in_fn" = None ->
    Course mode m p st
      (Raise (AttributeError "fan_in_fn"),
       mkState (self_attrs st) w (calls st ++ [FanOutGenerate fo m p]))
| Reduced fo responses w fn r w' :
    self_attrs st !! "fan_out" = Some fo ->
    fan_out_generate fo m p (world st) = (Ok responses, w) ->
    self_attrs st !! "fan_in_fn" = Some fn ->
    truthy fn = true ->
    call_await fn responses w = (r, w') ->
    Course mode m p st
      (reduced mode r,
       mkState (self_attrs st) w'
         (calls st ++ [FanOutGenerate fo m p; FanInFnCall fn responses]))
| NoFanIn fo responses w fn :
    self_attrs st !! "fan_out" = Some fo ->
    fan_out_generate fo m p (world st) = (Ok responses, w) ->
    self_attrs st !! "fan_in_fn" = Some fn ->
    truthy fn = false ->
    self_attrs st !! "fan_in" = None ->
    Course mode m p st
      (Raise (AttributeError "fan_in"),
       mkState (self_attrs st) w (calls st ++ [FanOutGenerate fo m p]))
| Aggregated fo responses w fn fi r w' :
    self_attrs st !! "fan_out" = Some fo ->
    fan_out_generate fo m p (world st) = (Ok responses, w) ->
    self_attrs st !! "fan_in_fn" = Some fn ->
    truthy fn = false ->
    self_attrs st !! "fan_in" = Some fi ->
    aggregator_call mode fi responses p w = (r, w') ->
    Course mode m p st
      (r,
       mkState (self_attrs st) w'
         (calls st ++
            [FanOutGenerate fo m p; aggregator_event mode fi responses p])).

End ParallelLLM.

(** ** The fan-out stage

    [FanOut.generate] and the executor it runs its tasks on are not
    among the source files; the definitions of this part follow the
    spec's description of them. *)

Inductive GenerationUnit : Type :=
| AgentUnit (agent : PyVal)
| FunctionUnit (fn : PyVal).

(** Modelled from the spec: the units of a fan-out stage, which is
    missing from the sources, "one per configured Generation Unit or
    function, in configuration order": the agents, then the functions. *)
Definition configured_units (fan_out : PyVal) : list GenerationUnit :=
  match fan_out with
  | PyFanOut agents functions _ _ =>
      (AgentUnit <$> py_items agents) ++ (FunctionUnit <$> py_items functions)
  | _ => []
  end.

(** What the units themselves compute. *)
Class Units : Type := {
  agent_generate : PyVal -> PyVal -> GenParams -> PyResult PyVal;
  function_call : PyVal -> PyVal -> PyResult PyVal
}.

(** Modelled from the spec: one unit's task in the missing
    [FanOut.generate].  An agent-backed unit gets the message and the
    parameters; a function-backed unit "is invoked with the message and
    its return value stands in for a generation result". *)
Definition run_unit `{Units} (message : PyVal) (p : GenParams)
  (u : GenerationUnit) : PyResult PyVal :=
  match u with
  | AgentUnit agent => agent_generate agent message p
  | FunctionUnit fn => function_call fn message
  end.

(** Completion-order jitter: task [i] takes [jitter !! i] time units
    (none when the list is too short); tasks complete by increasing time,
    ties in submission order. *)
Definition delay (jitter : list nat) (i : nat) : nat :=
  default 0 (jitter !! i).

Fixpoint insert_by_delay (jitter : list nat) (i : nat) (order : list nat)
  : list nat :=
  match order with
  | [] => [i]
  | j :: rest =>
      if (delay jitter i <=? delay jitter j)%nat
      then i :: j :: rest
      else j :: insert_by_delay jitter i rest
  end.

Definition completion_order (jitter : list nat) (n : nat) : list nat :=
  foldr (insert_by_delay jitter) [] (seq 0 n).

(** Modelled from the spec: the missing executor at work.  The tasks
    complete in [order]; each result goes to the slot of its task, and
    the executor is "raising/propagating the first failure
    encountered". *)
Fixpoint complete (order : list nat) (tasks : list (PyResult PyVal))
  (slots : list (option PyVal)) : PyResult (list (option PyVal)) :=
  match order with
  | [] => Ok slots
  | i :: rest =>
      match tasks !! i with
      | Some (Ok v) => complete rest tasks (<[i := Some v]> slots)
      | Some (Raise e) => Raise e
      | None => complete rest tasks slots
      end
  end.

(** Modelled from the spec: the missing executor, which "accepts a set
    of zero-argument asynchronous tasks and runs them concurrently,
    returning their results once all complete".  All slots start empty,
    the tasks complete in [order], and the slots are read out in task
    order. *)
Definition execute_in (order : list nat) (tasks : list (PyResult PyVal))
  : PyResult (list PyVal) :=
  match complete order tasks (replicate (length tasks) None) with
  | Ok slots => Ok (omap id slots)
  | Raise e => Raise e
  end.

Definition execute (jitter : list nat) (tasks : list (PyResult PyVal))
  : PyResult (list PyVal) :=
  execute_in (completion_order jitter (length tasks)) tasks.

(** The results of tasks that all succeeded. *)
Definition outputs (tasks : list (PyResult PyVal)) : list PyVal :=
  omap (fun t => match t with Ok v => Some v | Raise _ => None end) tasks.

(** Modelled from the spec: [FanOut.generate], missing from the
    sources.  The stage "dispatches the same input message to a
    configured collection of Generation Units concurrently and collects
    their individual outputs into an ordered collection, preserving unit
    configuration order". *)
Definition FanOut_generate `{Units} (jitter : list nat)
  (fan_out message : PyVal) (p : GenParams) : PyResult (list PyVal) :=
  execute jitter (run_unit message p <$> configured_units fan_out).

(** ** A concrete deployment

    Collaborators simple enough to evaluate: function units that answer
    with their own name, agents that vote, a reduction that joins with a
    bar, an aggregator that takes the majority.  The world is the jitter
    the executor meets. *)

Definition text_of (v : PyVal) : option string :=
  match v with PyStr s => Some s | _ => None end.

Definition vote_of (v : PyVal) : option bool :=
  match v with PyBool b => Some b | _ => None end.

Definition majority (votes : list bool) : bool :=
  (length (filter (fun b => b = false) votes)
     <? length (filter (fun b => b = true) votes))%nat.

Definition demo_str (v : PyVal) : PyResult string :=
  match v with
  | PyNone => Ok "None"
  | PyBool true => Ok "True"
  | PyBool false => Ok "False"
  | PyInt n => Ok (pretty n)
  | PyStr s => Ok s
  | _ => Raise TypeError   (* a [__str__] that raises *)
  end.

#[export] Instance demo_units : Units := {
  agent_generate agent _ _ :=
    match agent with
    | PyInstance "Voter" oid _ _ => Ok (PyBool (Nat.even oid))
    | _ => Raise (UnitFailure 2)
    end;
  function_call fn _ :=
    match fn with
    | PyFunc "boom" => Raise (UnitFailure 1)
    | PyFunc name => Ok (PyStr name)
    | _ => Raise TypeError
    end
}.

#[export] Instance demo : Collaborators (list nat) := {
  AugmentedLLM_init executor attrs :=
    Ok (<["history" := PyList []]> (<["executor" := executor]> attrs));
  FanInLLM_new agent llm_factory executor :=
    Ok (PyFanInLLM agent llm_factory executor);
  fan_out_generate fan_out message p jitter :=
    (FanOut_generate jitter fan_out message p, jitter);
  call_await fn responses jitter :=
    (match fn with
     | PyFunc "join_bar" =>
         Ok (PyStr (String.concat "|" (omap text_of responses)))
     | PyFunc "count" => Ok (PyInt (Z.of_nat (length responses)))
     | PyFunc "first" => Ok (default PyNone (head responses))
     | _ => Raise TypeError
     end, jitter);
  fan_in_generate _ responses _ jitter := (Ok (PyList responses), jitter);
  fan_in_generate_str _ responses _ jitter :=
    (Ok (PyStr (String.concat " " (omap text_of responses))), jitter);
  fan_in_generate_structured _ responses _ _ jitter :=
    (Ok (PyBool (majority (omap vote_of responses))), jitter);
  builtin_str := demo_str
}.

Definition an_agent : PyVal := PyInstance "Agent" 0 false true.
Definition voter (oid : nat) : PyVal := PyInstance "Voter" oid false true.
Definition section_units : PyVal :=
  PyList [PyFunc "A"; PyFunc "B"; PyFunc "C"].

(** [ParallelLLM(fan_in, fan_out_agents=agents,
    fan_out_functions=functions)]: the state the constructor ends in. *)
Definition new_state (fan_in agents functions : PyVal)
  (jitter : list nat) : State (list nat) :=
  snd (ParallelLLM_new fan_in agents functions PyNone PyNone jitter).

Definition X : PyVal := PyStr "X".
Definition Verdict : PyVal := PyStr "Verdict".   (* a response model *)

Definition voters : PyVal := PyList [voter 0; voter 2; voter 1].

(** Sectioning, joined by a function. *)
Definition joiner : State (list nat) :=
  new_state (PyFunc "join_bar") PyNone section_units [2; 0; 1].

(** Voting, counted by a function that returns an integer. *)
Definition counter : State (list nat) :=
  new_state (PyFunc "count") voters PyNone [1; 0].

(** One of two units fails. *)
Definition broken : State (list nat) :=
  new_state (PyFunc "count") (PyList [voter 0]) (PyList [PyFunc "boom"])
    [5].

(** Voting, to be aggregated by an agent. *)
Definition with_agent : State (list nat) :=
  new_state an_agent voters PyNone [0; 1].

(** [instance.fan_in_fn = None], assigned from outside. *)
Definition patched (st : State (list nat)) : State (list nat) :=
  mkState (<["fan_in_fn" := PyNone]> (self_attrs st)) (world st) (calls st).

(** A callable instance whose truth value is false (an empty callable
    container, say). *)
Definition falsy_callable : PyVal := PyInstance "Pipeline" 7 true false.

(** The same collaborators, with a [FanInLLM] that cannot be built. *)
Definition without_FanInLLM {W} (C : Collaborators W) (e : PyExc)
  : Collaborators W :=
  {| AugmentedLLM_init := @AugmentedLLM_init W C;
     FanInLLM_new := fun _ _ _ => Raise e;
     fan_out_generate := @fan_out_generate W C;
     call_await := @call_await W C;
     fan_in_generate := @fan_in_generate W C;
     fan_in_generate_str := @fan_in_generate_str W C;
     fan_in_generate_structured := @fan_in_generate_structured W C;
     builtin_str := @builtin_str W C |}.

(** ** The OpenAI intent classifier

    [OpenAILLMIntentClassifier] of
    [src/mcp_agent/workflows/intent_classifier/intent_classifier_llm_openai.py]
    (its constructor is also the whole of
    [src/mcp_agent/workflows/intent_classifier_llm_openai.py]).  The LLM
    class, the base classifier and its [initialize] are outside the
    files; their invocations are logged like the coordinator's. *)

Module IntentClassifier.

Definition CLASSIFIER_SYSTEM_INSTRUCTION : string := "
You are a precise intent classifier that analyzes input requests to determine their intended action or purpose.
You are provided with a request and a list of intents to choose from.
You can choose one or more intents, or choose none if no intent is appropriate.
".

Inductive Invocation : Type :=
| NewOpenAILLM (instruction : string)
| BaseInit (llm intents classification_instruction : PyVal)
| Initialize (instance : gmap string PyVal).

Class Classifier (World : Type) : Type := {
  (* [OpenAIAugmentedLLM(instruction=..)] *)
  OpenAIAugmentedLLM_new : string -> World -> PyResult PyVal * World;
  (* [LLMIntentClassifier.__init__(self, llm=.., intents=..,
     classification_instruction=..)]: the attributes it leaves *)
  LLMIntentClassifier_init :
    PyVal -> PyVal -> PyVal -> gmap string PyVal -> World ->
    PyResult (gmap string PyVal) * World;
  (* [await instance.initialize()]: the instance as it leaves it *)
  initialize :
    gmap string PyVal -> World -> PyResult (gmap string PyVal) * World
}.

Record Env (World : Type) : Type := mkEnv {
  ext : World;
  log : list Invocation
}.
Arguments mkEnv {World}.
Arguments ext {World}.
Arguments log {World}.

(** An invocation of a collaborator: logged, then run. *)
Definition logged {W A} (i : Invocation) (f : W -> PyResult A * W)
  (s : Env W) : PyResult A * Env W :=
  let (r, w) := f (ext s) in (r, mkEnv w (log s ++ [i])).

Section Classifier.

Context {World : Type} `{K : Classifier World}.

(** [OpenAILLMIntentClassifier.__init__], on the instance [self] *)
Definition init (intents classification_instruction : PyVal)
  (self : gmap string PyVal) (s : Env World)
  : PyResult (gmap string PyVal) * Env World :=
  match logged (NewOpenAILLM CLASSIFIER_SYSTEM_INSTRUCTION)
          (OpenAIAugmentedLLM_new CLASSIFIER_SYSTEM_INSTRUCTION) s with
  | (Ok openai_llm, s1) =>
      logged (BaseInit openai_llm intents classification_instruction)
        (LLMIntentClassifier_init openai_llm intents
           classification_instruction self) s1
  | (Raise e, s1) => (Raise e, s1)
  end.

(** [OpenAILLMIntentClassifier.create] *)
Definition create (intents classification_instruction : PyVal)
  (s : Env World) : PyResult (gmap string PyVal) * Env World :=
  match init intents classification_instruction ∅ s with
  | (Ok instance, s1) =>
      match logged (Initialize instance) (initialize instance) s1 with
      | (Ok instance', s2) => (Ok instance', s2)
      | (Raise e, s2) => (Raise e, s2)
      end
  | (Raise e, s1) => (Raise e, s1)
  end.

End Classifier.

(** A classifier deployment to evaluate: the LLM is an object that
    remembers its instruction, the base class stores what it is given
    (and refuses an empty list of intents), [initialize] marks the
    instance. *)
#[export] Instance demo_classifier : Classifier nat := {
  OpenAIAugmentedLLM_new instruction n :=
    (Ok (PyList [PyStr "OpenAIAugmentedLLM"; PyStr instruction]), S n);
  LLMIntentClassifier_init llm intents ci self n :=
    (match intents with
     | PyList (_ :: _) =>
         Ok (<["classification_instruction" := ci]>
               (<["intents" := intents]> (<["llm" := llm]> self)))
     | _ => Raise (UnitFailure 3)
     end, n);
  initialize instance n :=
    (Ok (<["initialized" := PyBool true]> instance), n)
}.

Definition greet : PyVal := PyList [PyStr "greet"].

End IntentClassifier.

(** * Properties *)

Section ParallelLLM_facts.

Context {World : Type} `{C : Collaborators World}.

Abbreviation St := (State World).

Lemma params_eta (p : GenParams) :
  mkGenParams (use_history p) (max_iterations p) (model p)
    (stop_sequences p) (max_tokens p) (parallel_tool_calls p) = p.
Proof. by destruct p. Qed.

Lemma new_calls_app (st : St) attrs w (evs : list Event) :
  new_calls st (mkState attrs w (calls st ++ evs)) = evs.
Proof. unfold new_calls; cbn. by rewrite drop_app_length. Qed.

Lemma new_calls_refl (st : St) : new_calls st st = [].
Proof. unfold new_calls. by rewrite drop_all. Qed.

(** Unfold one operation down to the attribute reads and the
    collaborator calls. *)
Ltac open_run :=
  unfold run, generate, generate_str, generate_structured, dispatch,
    reduce, bind, getattr, invoke, lift, ret;
  cbn [self_attrs world calls];
  rewrite ?params_eta.

(** ** What one call does, path by path *)

Lemma run_no_fan_out mode m p (st : St) :
  self_attrs st !! "fan_out" = None ->
  run mode m p st = (Raise (AttributeError "fan_out"), st).
Proof. intros Hfo. destruct mode; open_run; by rewrite Hfo. Qed.

Lemma run_dispatch_raise mode m p (st : St) fo e w :
  self_attrs st !! "fan_out" = Some fo ->
  fan_out_generate fo m p (world st) = (Raise e, w) ->
  run mode m p st =
    (Raise e,
     mkState (self_attrs st) w (calls st ++ [FanOutGenerate fo m p])).
Proof. intros Hfo Hout. destruct mode; open_run; by rewrite Hfo, Hout. Qed.

Lemma run_no_fan_in_fn mode m p (st : St) fo responses w :
  self_attrs st !! "fan_out" = Some fo ->
  fan_out_generate fo m p (world st) = (Ok responses, w) ->
  self_attrs st !! "fan_in_fn" = None ->
  run mode m p st =
    (Raise (AttributeError "fan_in_fn"),
     mkState (self_attrs st) w (calls st ++ [FanOutGenerate fo m p])).
Proof.
  intros Hfo Hout Hfn.
  destruct mode; open_run; rewrite Hfo, Hout; cbn; by rewrite Hfn.
Qed.

Lemma run_reduce mode m p (st : St) fo responses w fn r w' :
  self_attrs st !! "fan_out" = Some fo ->
  fan_out_generate fo m p (world st) = (Ok responses, w) ->
  self_attrs st !! "fan_in_fn" = Some fn ->
  truthy fn = true ->
  call_await fn responses w = (r, w') ->
  run mode m p st =
    (reduced mode r,
     mkState (self_attrs st) w'
       (calls st ++ [FanOutGenerate fo m p; FanInFnCall fn responses])).
Proof.
  intros Hfo Hout Hfn Ht Hcall.
  destruct mode; open_run; rewrite Hfo, Hout; cbn; rewrite Hfn, Ht; cbn;
    rewrite Hfn; cbn; rewrite Hcall, <- app_assoc; cbn;
    destruct r as [raw|e]; cbn; try done;
    by destruct (builtin_str raw).
Qed.

Lemma run_no_fan_in mode m p (st : St) fo responses w fn :
  self_attrs st !! "fan_out" = Some fo ->
  fan_out_generate fo m p (world st) = (Ok responses, w) ->
  self_attrs st !! "fan_in_fn" = Some fn ->
  truthy fn = false ->
  self_attrs st !! "fan_in" = None ->
  run mode m p st =
    (Raise (AttributeError "fan_in"),
     mkState (self_attrs st) w (calls st ++ [FanOutGenerate fo m p])).
Proof.
  intros Hfo Hout Hfn Ht Hfi.
  destruct mode; open_run; rewrite Hfo, Hout; cbn; rewrite Hfn, Ht; cbn;
    by rewrite Hfi.
Qed.

Lemma run_aggregate mode m p (st : St) fo responses w fn fi r w' :
  self_attrs st !! "fan_out" = Some fo ->
  fan_out_generate fo m p (world st) = (Ok responses, w) ->
  self_attrs st !! "fan_in_fn" = Some fn ->
  truthy fn = false ->
  self_attrs st !! "fan_in" = Some fi ->
  aggregator_call mode fi responses p w = (r, w') ->
  run mode m p st =
    (r,
     mkState (self_attrs st) w'
       (calls st ++
          [FanOutGenerate fo m p; aggregator_event mode fi responses p])).
Proof.
  intros Hfo Hout Hfn Ht Hfi Hcall.
  destruct mode; open_run; rewrite Hfo, Hout; cbn; rewrite Hfn, Ht; cbn;
    rewrite Hfi; cbn; cbn in Hcall; rewrite Hcall, <- app_assoc; cbn;
    by destruct r.
Qed.

(** Every call takes one of the courses. *)
Lemma run_course mode m p (st : St) : Course mode m p st (run mode m p st).
Proof.
  destruct (self_attrs st !! "fan_out") as [fo|] eqn:Hfo.
  2: { rewrite run_no_fan_out by done. by constructor. }
  destruct (fan_out_generate fo m p (world st)) as [[responses|e] w] eqn:Hout.
  2: { erewrite run_dispatch_raise by done. by econstructor. }
  destruct (self_attrs st !! "fan_in_fn") as [fn|] eqn:Hfn.
  2: { erewrite run_no_fan_in_fn by done. by econstructor. }
  destruct (truthy fn) eqn:Ht.
  - destruct (call_await fn responses w) as [r w'] eqn:Hcall.
    erewrite run_reduce by done. by econstructor.
  - destruct (self_attrs st !! "fan_in") as [fi|] eqn:Hfi.
    + destruct (aggregator_call mode fi responses p w) as [r w'] eqn:Hcall.
      erewrite run_aggregate by done. by econstructor.
    + erewrite run_no_fan_in by done. by econstructor.
Qed.

(** The fan-out phase alone, on the same paths. *)
Lemma dispatch_no_fan_out m p (st : St) :
  self_attrs st !! "fan_out" = None ->
  dispatch m p st = (Raise (AttributeError "fan_out"), st).
Proof. intros Hfo. unfold dispatch, bind, getattr. by rewrite Hfo. Qed.

Lemma dispatch_some m p (st : St) fo :
  self_attrs st !! "fan_out" = Some fo ->
  dispatch m p st =
    (fst (fan_out_generate fo m p (world st)),
     mkState (self_attrs st) (snd (fan_out_generate fo m p (world st)))
       (calls st ++ [FanOutGenerate fo m p])).
Proof.
  intros Hfo. unfold dispatch, bind, getattr, invoke. rewrite Hfo.
  by destruct (fan_out_generate fo m p (world st)).
Qed.

(** No call writes an attribute of the instance. *)
Lemma run_attrs mode m p (st : St) :
  self_attrs (snd (run mode m p st)) = self_attrs st.
Proof. by destruct (run_course mode m p st). Qed.

Lemma run_calls_attrs cs (st : St) :
  self_attrs (run_calls cs st) = self_attrs st.
Proof.
  revert st. induction cs as [|c cs IH]; intros st; cbn; [done|].
  by rewrite IH, run_attrs.
Qed.

Lemma run_world mode m p (st : St) (I : World -> Prop) :
  collaborators_preserve I ->
  I (world st) -> I (world (snd (run mode m p st))).
Proof.
  intros (Hout & Hfn & Hagg) Hst.
  destruct (run_course mode m p st) as
    [ | fo e w _ Ho | fo rs w _ Ho _ | fo rs w fn r w' _ Ho _ _ Hc
    | fo rs w fn _ Ho _ _ _ | fo rs w fn fi r w' _ Ho _ _ _ Hc ];
    cbn; try done;
    specialize (Hout fo m p _ Hst); rewrite Ho in Hout; cbn in Hout;
    try done.
  - specialize (Hfn fn rs _ Hout). by rewrite Hc in Hfn.
  - specialize (Hagg mode fi rs p _ Hout). by rewrite Hc in Hagg.
Qed.

Lemma run_calls_world cs (st : St) (I : World -> Prop) :
  collaborators_preserve I ->
  I (world st) -> I (world (run_calls cs st)).
Proof.
  intros HI. revert st. induction cs as [|c cs IH]; intros st Hst; cbn.
  - done.
  - apply IH. by apply run_world.
Qed.

(** ** Construction *)

Lemma new_history fi a f lf ex w (st : St) :
  ParallelLLM_new fi a f lf ex w = (Ok tt, st) ->
  self_attrs st !! "history" = Some PyNone.
Proof.
  unfold ParallelLLM_new, ParallelLLM_init, super_init, bind, setattr,
    lift.
  cbn.
  destruct (AugmentedLLM_init ex ∅) as [base|]; cbn; [|done].
  destruct (is_callable fi); cbn.
  - destruct (FanOut_new a f lf ex); cbn; [|done].
    intros [= <-]. cbn. by simplify_map_eq.
  - destruct (FanInLLM_new fi lf ex); cbn; [|done].
    destruct (FanOut_new a f lf ex); cbn; [|done].
    intros [= <-]. cbn. by simplify_map_eq.
Qed.

(** With a fan-in value that is not callable, [__init__] assigns
    [fan_in] and leaves [fan_in_fn] as the base class left it. *)
Lemma new_not_callable fi a f lf ex w (st : St) base :
  is_callable fi = false ->
  AugmentedLLM_init ex ∅ = Ok base ->
  ParallelLLM_new fi a f lf ex w = (Ok tt, st) ->
  self_attrs st !! "fan_in_fn" = base !! "fan_in_fn" /\
  (exists fan_in, FanInLLM_new fi lf ex = Ok fan_in /\
                  self_attrs st !! "fan_in" = Some fan_in) /\
  (exists fo, FanOut_new a f lf ex = Ok fo /\
              self_attrs st !! "fan_out" = Some fo).
Proof.
  intros Hc Hbase.
  unfold ParallelLLM_new, ParallelLLM_init, super_init, bind, setattr,
    lift.
  cbn.
  rewrite Hbase, Hc. cbn.
  destruct (FanInLLM_new fi lf ex) as [fan_in|]; cbn; [|done].
  destruct (FanOut_new a f lf ex) as [fo|]; cbn; [|done].
  intros [= <-]. cbn. split; [by simplify_map_eq|].
  split; [exists fan_in | exists fo]; by simplify_map_eq.
Qed.

(** With a callable one it assigns [fan_in_fn]. *)
Lemma new_callable fi a f lf ex w (st : St) :
  is_callable fi = true ->
  ParallelLLM_new fi a f lf ex w = (Ok tt, st) ->
  self_attrs st !! "fan_in_fn" = Some fi /\
  (exists fo, FanOut_new a f lf ex = Ok fo /\
              self_attrs st !! "fan_out" = Some fo).
Proof.
  intros Hc.
  unfold ParallelLLM_new, ParallelLLM_init, super_init, bind, setattr,
    lift.
  cbn.
  destruct (AugmentedLLM_init ex ∅) as [base|]; cbn; [|done].
  rewrite Hc. cbn.
  destruct (FanOut_new a f lf ex) as [fo|]; cbn; [|done].
  intros [= <-]. cbn. split; [by simplify_map_eq|].
  exists fo. by simplify_map_eq.
Qed.

(** ** The claims about the three operations *)

(** C2.  If the fan-out phase of a call fails, whatever the operation,
    the call fails with that very failure, in the state the fan-out left,
    and nothing the call added to the call log is an invocation of the
    fan-in side (neither the reduction function nor the aggregator
    unit). *)
Theorem fan_out_failure_fails_call mode m p (st st1 : St) e :
  dispatch m p st = (Raise e, st1) ->
  run mode m p st = (Raise e, st1) /\
  forall ev, ev ∈ new_calls st st1 -> is_fan_in ev = false.
Proof.
  intros Hd.
  destruct (self_attrs st !! "fan_out") as [fo|] eqn:Hfo.
  - rewrite (dispatch_some _ _ _ _ Hfo) in Hd.
    destruct (fan_out_generate fo m p (world st)) as [out w] eqn:Hout.
    cbn in Hd. injection Hd as -> <-.
    split; [by apply run_dispatch_raise|].
    rewrite new_calls_app. intros ev ->%list_elem_of_singleton. done.
  - rewrite (dispatch_no_fan_out _ _ _ Hfo) in Hd.
    injection Hd as <- <-.
    split; [by apply run_no_fan_out|].
    rewrite new_calls_refl. by intros ev ?%elem_of_nil.
Qed.

(** C3.  Every operation is a two-phase pipeline.  The first thing a
    call adds to the call log is the invocation of the fan-out stage,
    with the caller's message and parameters; at most one further
    invocation follows, it is an invocation of the fan-in side, it only
    happens when the fan-out returned, and its input is exactly the
    sequence the fan-out returned.  It does follow on the function path
    and on the aggregator path. *)
Theorem two_phase_pipeline mode m p (st : St) fo out w :
  self_attrs st !! "fan_out" = Some fo ->
  fan_out_generate fo m p (world st) = (out, w) ->
  exists rest,
    new_calls st (snd (run mode m p st)) = FanOutGenerate fo m p :: rest /\
    (forall ev, ev ∈ rest ->
       rest = [ev] /\ is_fan_in ev = true /\
       exists responses,
         out = Ok responses /\ combine_input ev = Some responses) /\
    (forall responses fn,
       out = Ok responses ->
       self_attrs st !! "fan_in_fn" = Some fn -> truthy fn = true ->
       rest = [FanInFnCall fn responses]) /\
    (forall responses fn fi,
       out = Ok responses ->
       self_attrs st !! "fan_in_fn" = Some fn -> truthy fn = false ->
       self_attrs st !! "fan_in" = Some fi ->
       rest = [aggregator_event mode fi responses p]).
Proof.
  intros Hfo Hout.
  destruct (run_course mode m p st) as
    [ Hfo' | fo' e w1 Hfo' Ho | fo' rs w1 Hfo' Ho Hfn
    | fo' rs w1 fn r w' Hfo' Ho Hfn Ht Hc
    | fo' rs w1 fn Hfo' Ho Hfn Ht Hfi
    | fo' rs w1 fn fi r w' Hfo' Ho Hfn Ht Hfi Hc ];
    rewrite Hfo in Hfo'; try done; injection Hfo' as <-;
    rewrite Hout in Ho; injection Ho as -> ->;
    cbn [snd]; rewrite new_calls_app.
  - exists []. split; [done|]. split; [by intros ev ?%elem_of_nil|].
    split; intros; done.
  - exists []. split; [done|]. split; [by intros ev ?%elem_of_nil|].
    split; intros; congruence.
  - exists [FanInFnCall fn rs]. split; [done|]. split.
    + intros ev ->%list_elem_of_singleton. repeat split. by exists rs.
    + split; intros; congruence.
  - exists []. split; [done|]. split; [by intros ev ?%elem_of_nil|].
    split; intros; congruence.
  - exists [aggregator_event mode fi rs p]. split; [done|]. split.
    + intros ev ->%list_elem_of_singleton. repeat split; [by destruct mode|].
      exists rs. by destruct mode.
    + split; intros; congruence.
Qed.

(** C5.  With a reduction function, [generate_structured] returns what
    the function returned (or raises what it raised), whatever the
    [response_model]: the model is neither consulted nor passed on. *)
Theorem generate_structured_returns_function_result
    m rm uh mi mo ss mt pt (st : St) fo responses w fn r w' :
  let p := mkGenParams uh mi mo ss mt pt in
  self_attrs st !! "fan_out" = Some fo ->
  fan_out_generate fo m p (world st) = (Ok responses, w) ->
  self_attrs st !! "fan_in_fn" = Some fn ->
  truthy fn = true ->
  call_await fn responses w = (r, w') ->
  generate_structured m rm uh mi mo ss mt pt st =
    (r,
     mkState (self_attrs st) w'
       (calls st ++ [FanOutGenerate fo m p; FanInFnCall fn responses])).
Proof.
  intros p Hfo Hout Hfn Ht Hc.
  pose proof (run_reduce (Structured rm) m p st fo responses w fn r w'
                Hfo Hout Hfn Ht Hc) as H.
  cbn in H. by destruct r.
Qed.

(** C10.  With a reduction function, [generate_structured] and
    [generate] are the same computation: same result, same final state,
    for every [response_model]. *)
Theorem generate_structured_is_generate_with_function
    m rm uh mi mo ss mt pt (st : St) fn :
  self_attrs st !! "fan_in_fn" = Some fn ->
  truthy fn = true ->
  generate_structured m rm uh mi mo ss mt pt st =
  generate m uh mi mo ss mt pt st.
Proof.
  intros Hfn Ht.
  unfold generate_structured, generate, bind.
  destruct (dispatch m _ st) as [[responses|e] st1] eqn:Hd; [|done].
  assert (self_attrs st1 = self_attrs st) as Hattrs.
  { destruct (self_attrs st !! "fan_out") as [fo|] eqn:Hfo.
    - rewrite (dispatch_some _ _ _ _ Hfo) in Hd. by injection Hd as _ <-.
    - rewrite (dispatch_no_fan_out _ _ _ Hfo) in Hd. done. }
  unfold getattr at 1 3. rewrite Hattrs, Hfn, Ht. done.
Qed.

(** C7.  In every operation, every invocation that carries generation
    parameters carries the six values the caller gave, each unchanged.
    The fan-out stage is invoked with them, and on the aggregator path
    so is the aggregator unit. *)
Theorem params_pass_through mode m uh mi mo ss mt pt (st : St) :
  let p := mkGenParams uh mi mo ss mt pt in
  let evs := new_calls st (snd (run mode m p st)) in
  (forall ev q,
     ev ∈ evs -> event_params ev = Some q ->
     use_history q = uh /\ max_iterations q = mi /\ model q = mo /\
     stop_sequences q = ss /\ max_tokens q = mt /\
     parallel_tool_calls q = pt) /\
  (forall fo,
     self_attrs st !! "fan_out" = Some fo ->
     head evs = Some (FanOutGenerate fo m p)) /\
  (forall fo responses w fn fi,
     self_attrs st !! "fan_out" = Some fo ->
     fan_out_generate fo m p (world st) = (Ok responses, w) ->
     self_attrs st !! "fan_in_fn" = Some fn -> truthy fn = false ->
     self_attrs st !! "fan_in" = Some fi ->
     last evs = Some (aggregator_event mode fi responses p)).
Proof.
  intros p evs. subst evs.
  destruct (run_course mode m p st) as
    [ Hfo | fo e w Hfo Ho | fo rs w Hfo Ho Hfn
    | fo rs w fn r w' Hfo Ho Hfn Ht Hc
    | fo rs w fn Hfo Ho Hfn Ht Hfi
    | fo rs w fn fi r w' Hfo Ho Hfn Ht Hfi Hc ];
    cbn [snd]; rewrite ?new_calls_app, ?new_calls_refl;
    (split; [|split]).
  all: try (intros ev q Hin Hq;
            repeat (apply elem_of_cons in Hin as [->|Hin]);
            try (by apply elem_of_nil in Hin);
            try (destruct mode); cbn in Hq; by simplify_eq).
  all: try (intros fo0 H0; cbn; congruence).
  all: intros fo0 rs0 w0 fn0 fi0 H0 H1 H2 H3 H4; cbn; congruence.
Qed.

(** C4.  [generate_str] gives a string.  On the function path the value
    the function returned goes through [str], so the result is a string
    whatever the function returned; on the aggregator path the result is
    what the unit's [generate_str] returned, as it is.  So whenever the
    operation returns, with a unit whose [generate_str] returns strings,
    it returns a string. *)
Theorem generate_str_returns_string m uh mi mo ss mt pt (st : St) :
  let p := mkGenParams uh mi mo ss mt pt in
  let result := fst (generate_str m uh mi mo ss mt pt st) in
  (forall fo responses w fn raw w' s,
     self_attrs st !! "fan_out" = Some fo ->
     fan_out_generate fo m p (world st) = (Ok responses, w) ->
     self_attrs st !! "fan_in_fn" = Some fn -> truthy fn = true ->
     call_await fn responses w = (Ok raw, w') ->
     builtin_str raw = Ok s ->
     result = Ok (PyStr s)) /\
  (forall fo responses w fn fi r w',
     self_attrs st !! "fan_out" = Some fo ->
     fan_out_generate fo m p (world st) = (Ok responses, w) ->
     self_attrs st !! "fan_in_fn" = Some fn -> truthy fn = false ->
     self_attrs st !! "fan_in" = Some fi ->
     fan_in_generate_str fi responses p w = (r, w') ->
     result = r) /\
  ((forall fi rs q w v w',
      fan_in_generate_str fi rs q w = (Ok v, w') -> is_str v = true) ->
   forall v, result = Ok v -> is_str v = true).
Proof.
  intros p result. subst result.
  change (generate_str m uh mi mo ss mt pt st) with (run Text m p st).
  split; [|split].
  - intros fo responses w fn raw w' s Hfo Ho Hfn Ht Hc Hs.
    rewrite (run_reduce Text m p st fo responses w fn (Ok raw) w')
      by done.
    cbn. by rewrite Hs.
  - intros fo responses w fn fi r w' Hfo Ho Hfn Ht Hfi Hc.
    by rewrite (run_aggregate Text m p st fo responses w fn fi r w').
  - intros Hunit v.
    destruct (run_course Text m p st) as
      [ | | | fo rs w fn r w' _ _ _ _ _ | | fo rs w fn fi r w' _ _ _ _ _ Hc ];
      cbn; try done.
    + destruct r as [raw|]; [|done].
      destruct (builtin_str raw); [|done]. by intros [= <-].
    + intros ->. by eapply Hunit.
Qed.

(** C6.  The coordinator keeps no history.  Construction leaves
    [history] bound to [None]; no sequence of calls, in any mix of the
    three operations, writes any attribute of the instance, so [history]
    is [None] ever after; and the only changes to what the units keep
    for themselves are the ones the units make in their own
    invocations. *)
Theorem coordinator_keeps_no_history fi a f lf ex w (st : St) :
  ParallelLLM_new fi a f lf ex w = (Ok tt, st) ->
  self_attrs st !! "history" = Some PyNone /\
  forall cs,
    self_attrs (run_calls cs st) = self_attrs st /\
    self_attrs (run_calls cs st) !! "history" = Some PyNone /\
    (forall I : World -> Prop,
       collaborators_preserve I -> I (world st) ->
       I (world (run_calls cs st))).
Proof.
  intros Hnew. pose proof (new_history _ _ _ _ _ _ _ Hnew) as Hh.
  split; [done|]. intros cs. rewrite run_calls_attrs.
  split; [done|]. split; [done|].
  intros I HI Hst. by apply run_calls_world.
Qed.

(** C8.  With no fan-out unit configured (no agent, no function) the
    constructor raises: always, and the exception is the fan-out stage's
    ConfigurationError whenever the steps before the stage is built (the
    base class, the fan-in side) went through. *)
Theorem no_fan_out_units_configuration_error fi a f lf ex (w : World) :
  py_items a = [] -> py_items f = [] ->
  (exists e, fst (ParallelLLM_new fi a f lf ex w) = Raise e) /\
  (forall base,
     AugmentedLLM_init ex ∅ = Ok base ->
     is_callable fi = true \/
       (exists fan_in, FanInLLM_new fi lf ex = Ok fan_in) ->
     fst (ParallelLLM_new fi a f lf ex w) = Raise ConfigurationError).
Proof.
  intros Ha Hf.
  assert (FanOut_new a f lf ex = Raise ConfigurationError) as Hfo.
  { unfold FanOut_new. by rewrite Ha, Hf. }
  unfold ParallelLLM_new, ParallelLLM_init, super_init, bind, setattr,
    lift.
  cbn.
  rewrite Hfo. split.
  - destruct (AugmentedLLM_init ex ∅); cbn; [|by eexists].
    destruct (is_callable fi); cbn; [by eexists|].
    destruct (FanInLLM_new fi lf ex); cbn; by eexists.
  - intros base -> Hfi. cbn.
    destruct (is_callable fi); cbn; [done|].
    destruct Hfi as [|[fan_in ->]]; done.
Qed.

(** ** Which side combines *)

(** An instance built with a fan-in value that is not callable, on a
    base class that binds no [fan_in_fn], has no [fan_in_fn]: every call
    whose fan-out returns raises [AttributeError] at the test
    [if self.fan_in_fn], before the aggregator unit is reached. *)
Lemma aggregator_route_unreachable fi a f lf ex w0 (st : St) base :
  is_callable fi = false ->
  AugmentedLLM_init ex ∅ = Ok base ->
  base !! "fan_in_fn" = None ->
  ParallelLLM_new fi a f lf ex w0 = (Ok tt, st) ->
  forall cs mode m p fo responses w,
    let st' := run_calls cs st in
    self_attrs st' !! "fan_out" = Some fo ->
    fan_out_generate fo m p (world st') = (Ok responses, w) ->
    run mode m p st' =
      (Raise (AttributeError "fan_in_fn"),
       mkState (self_attrs st') w (calls st' ++ [FanOutGenerate fo m p])).
Proof.
  intros Hc Hbase Hnone Hnew cs mode m p fo responses w st' Hfo Hout.
  apply (run_no_fan_in_fn mode m p st' fo responses w Hfo Hout).
  subst st'. rewrite run_calls_attrs.
  destruct (new_not_callable _ _ _ _ _ _ _ _ Hc Hbase Hnew) as (-> & _).
  done.
Qed.

(** An instance built with a callable that is true combines with it, in
    all three operations, call after call. *)
Lemma function_route fi a f lf ex w0 (st : St) :
  is_callable fi = true -> truthy fi = true ->
  ParallelLLM_new fi a f lf ex w0 = (Ok tt, st) ->
  forall cs mode m p fo responses w r w',
    let st' := run_calls cs st in
    self_attrs st' !! "fan_out" = Some fo ->
    fan_out_generate fo m p (world st') = (Ok responses, w) ->
    call_await fi responses w = (r, w') ->
    run mode m p st' =
      (reduced mode r,
       mkState (self_attrs st') w'
         (calls st' ++ [FanOutGenerate fo m p; FanInFnCall fi responses])).
Proof.
  intros Hc Ht Hnew cs mode m p fo responses w r w' st' Hfo Hout Hcall.
  apply (run_reduce mode m p st' fo responses w fi r w'); try done.
  subst st'. rewrite run_calls_attrs.
  by destruct (new_callable _ _ _ _ _ _ _ Hc Hnew) as (-> & _).
Qed.

End ParallelLLM_facts.

(** ** The fan-out stage: order of the results *)

Lemma insert_by_delay_perm jitter i order :
  Permutation (insert_by_delay jitter i order) (i :: order).
Proof.
  induction order as [|j rest IH]; cbn [insert_by_delay]; [done|].
  destruct (delay jitter i <=? delay jitter j)%nat; [done|].
  rewrite IH. apply perm_swap.
Qed.

Lemma completion_order_perm jitter n :
  Permutation (completion_order jitter n) (seq 0 n).
Proof.
  unfold completion_order. generalize (seq 0 n) as l.
  induction l as [|i l IH]; cbn; [done|].
  by rewrite insert_by_delay_perm, IH.
Qed.

Lemma completion_order_complete jitter n i :
  i < n -> i ∈ completion_order jitter n.
Proof.
  intros Hi. rewrite (completion_order_perm jitter n).
  apply list_elem_of_In, in_seq. lia.
Qed.

Lemma omap_id_Some (vs : list PyVal) : omap id (Some <$> vs) = vs.
Proof. induction vs as [|v vs IH]; cbn; [done|]. by rewrite IH. Qed.

(** When every task succeeds, the slots of the tasks that completed hold
    their results and the other slots are untouched. *)
Lemma complete_ok (vs : list PyVal) order slots :
  length slots = length vs ->
  exists slots',
    complete order (Ok <$> vs) slots = Ok slots' /\
    length slots' = length vs /\
    forall i, i < length vs ->
      slots' !! i = if decide (i ∈ order) then Some (vs !! i) else slots !! i.
Proof.
  revert slots. induction order as [|i0 rest IH]; intros slots Hlen; cbn.
  - exists slots. split; [done|]. split; [done|]. intros i Hi.
    destruct (decide (i ∈ [])) as [Hin|]; [|done].
    by apply elem_of_nil in Hin.
  - rewrite list_lookup_fmap.
    destruct (vs !! i0) as [v0|] eqn:Hv0; cbn.
    + destruct (IH (<[i0 := Some v0]> slots)) as (slots' & Hc & Hl & Hlook).
      { by rewrite length_insert. }
      exists slots'. split; [done|]. split; [done|]. intros i Hi.
      rewrite (Hlook i Hi).
      destruct (decide (i ∈ rest)) as [Hin|Hnin].
      * rewrite decide_True; [done|]. by apply elem_of_cons; right.
      * destruct (decide (i = i0)) as [->|Hne].
        -- rewrite decide_True by (apply elem_of_cons; by left).
           rewrite list_lookup_insert_eq by lia. by rewrite Hv0.
        -- rewrite list_lookup_insert_ne by done.
           rewrite decide_False; [done|].
           intros [?|?]%elem_of_cons; done.
    + destruct (IH slots Hlen) as (slots' & Hc & Hl & Hlook).
      exists slots'. split; [done|]. split; [done|]. intros i Hi.
      rewrite (Hlook i Hi).
      apply lookup_ge_None in Hv0.
      destruct (decide (i ∈ rest)) as [Hin|Hnin].
      * rewrite decide_True; [done|]. by apply elem_of_cons; right.
      * rewrite decide_False; [done|].
        intros [?|?]%elem_of_cons; [lia|done].
Qed.

(** A run of the executor returns only if no completed task failed. *)
Lemma complete_returns order tasks slots slots' :
  complete order tasks slots = Ok slots' ->
  forall i t, i ∈ order -> tasks !! i = Some t -> exists v, t = Ok v.
Proof.
  revert slots. induction order as [|i0 rest IH]; intros slots Hc i t Hin Ht.
  - by apply elem_of_nil in Hin.
  - cbn in Hc. apply elem_of_cons in Hin as [->|Hin].
    + rewrite Ht in Hc. destruct t as [v|e]; [by exists v|done].
    + destruct (tasks !! i0) as [[v0|e0]|]; [|done|]; by eapply IH.
Qed.

(** A failure the executor raises is the failure of one of the tasks. *)
Lemma complete_raises order tasks slots e :
  complete order tasks slots = Raise e ->
  exists i, tasks !! i = Some (Raise e).
Proof.
  revert slots. induction order as [|i0 rest IH]; intros slots Hc; [done|].
  cbn in Hc. destruct (tasks !! i0) as [[v0|e0]|] eqn:Ht.
  - by eapply IH.
  - injection Hc as ->. by exists i0.
  - by eapply IH.
Qed.

(** Any order in which every task completes gives the results in task
    order. *)
Lemma execute_in_ok order (vs : list PyVal) :
  (forall i, i < length vs -> i ∈ order) ->
  execute_in order (Ok <$> vs) = Ok vs.
Proof.
  intros Hall. unfold execute_in. rewrite length_fmap.
  destruct (complete_ok vs order (replicate (length vs) None))
    as (slots' & -> & Hl & Hlook).
  { by rewrite length_replicate. }
  f_equal. transitivity (omap id (Some <$> vs)); [|apply omap_id_Some].
  f_equal.
  apply list_eq. intros i. rewrite list_lookup_fmap.
  destruct (decide (i < length vs)) as [Hi|Hi].
  - rewrite (Hlook i Hi).
    rewrite decide_True by by apply Hall.
    by destruct (lookup_lt_is_Some_2 vs i Hi) as [v ->].
  - rewrite !lookup_ge_None_2 by lia. done.
Qed.

Lemma execute_in_perm_ok order (vs : list PyVal) :
  Permutation order (seq 0 (length vs)) ->
  execute_in order (Ok <$> vs) = Ok vs.
Proof.
  intros Hperm. apply execute_in_ok. intros i Hi.
  rewrite Hperm. apply list_elem_of_In, in_seq. lia.
Qed.

Lemma execute_ok jitter (vs : list PyVal) :
  execute jitter (Ok <$> vs) = Ok vs.
Proof.
  unfold execute. rewrite length_fmap.
  apply execute_in_perm_ok, completion_order_perm.
Qed.

Lemma all_ok_outputs (tasks : list (PyResult PyVal)) :
  (forall t, t ∈ tasks -> exists v, t = Ok v) ->
  tasks = Ok <$> outputs tasks.
Proof.
  induction tasks as [|t tasks IH]; intros Hall; [done|].
  destruct (Hall t) as [v ->]; [by left|]. cbn. f_equal.
  apply IH. intros t' Hin. apply Hall. by right.
Qed.

Lemma execute_returns jitter tasks rs :
  execute jitter tasks = Ok rs -> tasks = Ok <$> rs.
Proof.
  intros He.
  assert (forall t, t ∈ tasks -> exists v, t = Ok v) as Hall.
  { intros t [i Hi]%list_elem_of_lookup. unfold execute, execute_in in He.
    destruct (complete _ tasks _) as [slots'|] eqn:Hc; [|done].
    eapply (complete_returns _ _ _ _ Hc i); [|done].
    apply completion_order_complete. by eapply lookup_lt_Some. }
  rewrite (all_ok_outputs tasks Hall) in He |- *.
  rewrite execute_ok in He. by injection He as ->.
Qed.

Lemma execute_raises jitter tasks e :
  execute jitter tasks = Raise e -> Raise e ∈ tasks.
Proof.
  unfold execute, execute_in.
  destruct (complete _ tasks _) as [slots'|e'] eqn:Hc; [done|].
  intros [= ->]. apply complete_raises in Hc as [i Hi].
  by eapply list_elem_of_lookup_2.
Qed.

(** One failing unit fails the stage, with the failure of a unit. *)
Lemma FanOut_generate_fails `{Units} jitter fo m p u e :
  u ∈ configured_units fo -> run_unit m p u = Raise e ->
  exists e', FanOut_generate jitter fo m p = Raise e' /\
             exists u', u' ∈ configured_units fo /\
                        run_unit m p u' = Raise e'.
Proof.
  intros Hu He. unfold FanOut_generate.
  destruct (execute jitter _) as [rs|e'] eqn:Hx.
  - apply execute_returns in Hx.
    assert (Raise e ∈ run_unit m p <$> configured_units fo) as Hin.
    { rewrite <- He. by apply list_elem_of_fmap_2. }
    rewrite Hx in Hin. apply list_elem_of_fmap in Hin as (v & ? & _). done.
  - exists e'. split; [done|].
    apply execute_raises, list_elem_of_fmap in Hx as (u' & ? & ?).
    by exists u'.
Qed.

(** C9.  Whatever the completion order of the concurrent invocations,
    the fan-out stage of N >= 1 units returns when every unit does, and
    whenever it returns, its result has length N and its element at
    index i is the output of the i-th configured unit. *)
Theorem fan_out_results_in_configuration_order `{Units}
    jitter a f lf ex fo m p :
  FanOut_new a f lf ex = Ok fo ->
  let units := configured_units fo in
  1 <= length units /\
  ((forall u, u ∈ units -> exists v, run_unit m p u = Ok v) ->
   exists rs, FanOut_generate jitter fo m p = Ok rs) /\
  (forall rs,
     FanOut_generate jitter fo m p = Ok rs ->
     length rs = length units /\
     forall i u, units !! i = Some u ->
       exists v, rs !! i = Some v /\ run_unit m p u = Ok v).
Proof.
  intros Hnew units. split; [|split].
  - unfold FanOut_new in Hnew. subst units.
    destruct (py_items a ++ py_items f) as [|x l] eqn:Hitems; [done|].
    injection Hnew as <-. cbn.
    rewrite length_app, !length_fmap, <- length_app, Hitems. cbn. lia.
  - intros Hall. exists (outputs (run_unit m p <$> units)).
    unfold FanOut_generate. fold units.
    rewrite (all_ok_outputs (run_unit m p <$> units)) at 1.
    + apply execute_ok.
    + intros t (u & -> & Hu)%list_elem_of_fmap. by apply Hall.
  - intros rs Hrs. unfold FanOut_generate in Hrs. fold units in Hrs.
    apply execute_returns in Hrs.
    split.
    + apply (f_equal length) in Hrs. by rewrite !length_fmap in Hrs.
    + intros i u Hu.
      apply (f_equal (fun l => l !! i)) in Hrs.
      rewrite !list_lookup_fmap, Hu in Hrs. cbn in Hrs.
      destruct (rs !! i) as [v|]; [|done].
      injection Hrs as ->. by exists v.
Qed.

(** * The deployment, evaluated *)

(** C1.  The aggregator route, as the code runs it.  An instance built
    with an agent on the fan-in side gets [fan_in] but no [fan_in_fn];
    in each of the three operations the fan-out runs, the test
    [if self.fan_in_fn] raises [AttributeError], and the aggregator unit
    is not invoked. *)
Theorem aggregator_route_raises_attribute_error :
  ParallelLLM_new an_agent voters PyNone PyNone PyNone [0; 1]
    = (Ok tt, with_agent) /\
  self_attrs with_agent !! "fan_in"
    = Some (PyFanInLLM an_agent PyNone PyNone) /\
  self_attrs with_agent !! "fan_in_fn" = None /\
  fst (run Raw X default_params with_agent)
    = Raise (AttributeError "fan_in_fn") /\
  fst (run Text X default_params with_agent)
    = Raise (AttributeError "fan_in_fn") /\
  fst (run (Structured Verdict) X default_params with_agent)
    = Raise (AttributeError "fan_in_fn") /\
  filter (fun ev => is_aggregator ev = true)
    (calls (run_calls
              [mkCall Raw X default_params; mkCall Text X default_params;
               mkCall (Structured Verdict) X default_params] with_agent))
    = [].
Proof. repeat split; by vm_compute. Qed.

(** The test at call time is on the truth value of [fan_in_fn], not on
    the kind of value the constructor saw: a callable that is false is
    stored as the reduction function and then passed over, for a
    [fan_in] that was never assigned. *)
Lemma falsy_callable_raises :
  let st := new_state falsy_callable PyNone section_units [] in
  self_attrs st !! "fan_in_fn" = Some falsy_callable /\
  fst (run Raw X default_params st) = Raise (AttributeError "fan_in").
Proof. split; by vm_compute. Qed.

(** Scenario A of the spec: three sections joined with a bar. *)
Example sectioning :
  fst (run Text X default_params joiner) = Ok (PyStr "A|B|C").
Proof. by vm_compute. Qed.

(** ** The theorems at work *)

Lemma fan_out_failure_fails_call_witness :
  let st1 := snd (dispatch X default_params broken) in
  run Raw X default_params broken = (Raise (UnitFailure 1), st1) /\
  forall ev, ev ∈ new_calls broken st1 -> is_fan_in ev = false.
Proof.
  apply (fan_out_failure_fails_call (C := demo)).
  vm_compute. reflexivity.
Defined.

Lemma two_phase_pipeline_witness :
  exists rest,
    new_calls joiner (snd (run Text X default_params joiner)) =
      FanOutGenerate (PyFanOut PyNone section_units PyNone PyNone) X
        default_params :: rest /\
    rest = [FanInFnCall (PyFunc "join_bar")
              [PyStr "A"; PyStr "B"; PyStr "C"]].
Proof.
  destruct (two_phase_pipeline (C := demo) Text X default_params joiner
              (PyFanOut PyNone section_units PyNone PyNone)
              (Ok [PyStr "A"; PyStr "B"; PyStr "C"]) [2; 0; 1])
    as (rest & Hfirst & _ & Hfn & _).
  - vm_compute. reflexivity.
  - vm_compute. reflexivity.
  - exists rest. split; [exact Hfirst|].
    apply Hfn; vm_compute; reflexivity.
Defined.

Lemma generate_structured_returns_function_result_witness :
  generate_structured X Verdict true 10 None None 2048 true counter =
    (Ok (PyInt 3),
     mkState (self_attrs counter) [1; 0]
       (calls counter ++
          [FanOutGenerate (PyFanOut voters PyNone PyNone PyNone) X
             default_params;
           FanInFnCall (PyFunc "count")
             [PyBool true; PyBool true; PyBool false]])).
Proof.
  apply (generate_structured_returns_function_result (C := demo)
           X Verdict true 10 None None 2048 true counter
           (PyFanOut voters PyNone PyNone PyNone)
           [PyBool true; PyBool true; PyBool false] [1; 0]
           (PyFunc "count") (Ok (PyInt 3)) [1; 0]);
    vm_compute; reflexivity.
Defined.

Lemma generate_structured_is_generate_with_function_witness :
  generate_structured X Verdict true 10 None None 2048 true counter =
  generate X true 10 None None 2048 true counter.
Proof.
  apply (generate_structured_is_generate_with_function (C := demo)
           X Verdict true 10 None None 2048 true counter (PyFunc "count"));
    vm_compute; reflexivity.
Defined.

Lemma params_pass_through_witness :
  last (new_calls (patched with_agent)
          (snd (run Raw X (mkGenParams false 3 (Some "m") (Some ["."]) 64
                             false) (patched with_agent)))) =
  Some (FanInGenerate (PyFanInLLM an_agent PyNone PyNone)
          [PyBool true; PyBool true; PyBool false]
          (mkGenParams false 3 (Some "m") (Some ["."]) 64 false)).
Proof.
  apply (proj2 (proj2 (params_pass_through (C := demo) Raw X
                         false 3 (Some "m") (Some ["."]) 64 false
                         (patched with_agent)))
           (PyFanOut voters PyNone PyNone PyNone)
           [PyBool true; PyBool true; PyBool false] [0; 1] PyNone
           (PyFanInLLM an_agent PyNone PyNone));
    vm_compute; reflexivity.
Defined.

Lemma generate_str_returns_string_witness :
  fst (generate_str X true 10 None None 2048 true counter) =
  Ok (PyStr "3").
Proof.
  apply (proj1 (generate_str_returns_string (C := demo)
                  X true 10 None None 2048 true counter)
           (PyFanOut voters PyNone PyNone PyNone)
           [PyBool true; PyBool true; PyBool false] [1; 0]
           (PyFunc "count") (PyInt 3) [1; 0] "3");
    vm_compute; reflexivity.
Defined.

Lemma coordinator_keeps_no_history_witness :
  self_attrs joiner !! "history" = Some PyNone /\
  self_attrs
    (run_calls [mkCall Text X default_params; mkCall Raw X default_params]
       joiner) !! "history" = Some PyNone.
Proof.
  destruct (coordinator_keeps_no_history (C := demo)
              (PyFunc "join_bar") PyNone section_units PyNone PyNone
              [2; 0; 1] joiner) as [Hnew Hcalls].
  - vm_compute. reflexivity.
  - split; [exact Hnew|].
    exact (proj1 (proj2 (Hcalls [mkCall Text X default_params;
                                 mkCall Raw X default_params]))).
Defined.

Lemma no_fan_out_units_configuration_error_witness :
  fst (ParallelLLM_new (C := demo) an_agent PyNone (PyList []) PyNone
         PyNone []) = Raise ConfigurationError.
Proof.
  destruct (no_fan_out_units_configuration_error (C := demo)
              an_agent PyNone (PyList []) PyNone PyNone [])
    as [_ Hkind].
  - reflexivity.
  - reflexivity.
  - apply (Hkind (<["history" := PyList []]> (<["executor" := PyNone]> ∅))).
    + reflexivity.
    + right. exists (PyFanInLLM an_agent PyNone PyNone). reflexivity.
Defined.

Lemma fan_out_results_in_configuration_order_witness :
  exists rs,
    FanOut_generate [2; 0; 1] (PyFanOut PyNone section_units PyNone PyNone)
      X default_params = Ok rs /\
    length rs = 3 /\
    exists v, rs !! 1 = Some v /\
              run_unit X default_params (FunctionUnit (PyFunc "B")) = Ok v.
Proof.
  destruct (fan_out_results_in_configuration_order [2; 0; 1]
              PyNone section_units PyNone PyNone
              (PyFanOut PyNone section_units PyNone PyNone)
              X default_params) as (_ & Hreturns & Hshape).
  - reflexivity.
  - destruct Hreturns as [rs Hrs].
    + intros u Hu. cbn in Hu.
      repeat (apply elem_of_cons in Hu as [->|Hu]);
        [by eexists..|by apply elem_of_nil in Hu].
    + exists rs. split; [exact Hrs|].
      destruct (Hshape rs Hrs) as [Hlen Hidx].
      split; [exact Hlen|].
      apply (Hidx 1 (FunctionUnit (PyFunc "B"))). reflexivity.
Defined.

(** * Further properties of the coordinator *)

Section ParallelLLM_more.

Context {World : Type} `{C : Collaborators World}.

Abbreviation St := (State World).

(** The constructor keeps what it was given: the four arguments it
    stores can be read back, whatever the base class had bound under
    those names; the fan-out stage it binds is the one built from the
    same agents, functions, factory and executor; and it makes no
    generation call and leaves the collaborators' world alone. *)
Theorem new_stores_arguments fi a f lf ex w (st : St) :
  ParallelLLM_new fi a f lf ex w = (Ok tt, st) ->
  self_attrs st !! "llm_factory" = Some lf /\
  self_attrs st !! "fan_in_agent" = Some fi /\
  self_attrs st !! "fan_out_agents" = Some a /\
  self_attrs st !! "fan_out_functions" = Some f /\
  (exists fo, FanOut_new a f lf ex = Ok fo /\
              self_attrs st !! "fan_out" = Some fo) /\
  world st = w /\ calls st = [].
Proof.
  unfold ParallelLLM_new, ParallelLLM_init, super_init, bind, setattr,
    lift.
  cbn.
  destruct (AugmentedLLM_init ex ∅) as [base|]; cbn; [|done].
  destruct (is_callable fi); cbn.
  - destruct (FanOut_new a f lf ex) as [fo|]; cbn; [|done].
    intros [= <-]. cbn. repeat split; try by simplify_map_eq.
    exists fo. by simplify_map_eq.
  - destruct (FanInLLM_new fi lf ex); cbn; [|done].
    destruct (FanOut_new a f lf ex) as [fo|]; cbn; [|done].
    intros [= <-]. cbn. repeat split; try by simplify_map_eq.
    exists fo. by simplify_map_eq.
Qed.

(** The constructor fails with the first failure it meets: that of the
    base class, and, for a fan-in value that is not callable, that of
    the [FanInLLM] constructor, which comes before the fan-out stage is
    built (so it is raised even when no unit is configured). *)
Theorem new_fails_first fi a f lf ex (w : World) e :
  (AugmentedLLM_init ex ∅ = Raise e ->
   ParallelLLM_new fi a f lf ex w = (Raise e, mkState ∅ w [])) /\
  (forall base,
     AugmentedLLM_init ex ∅ = Ok base ->
     is_callable fi = false ->
     FanInLLM_new fi lf ex = Raise e ->
     fst (ParallelLLM_new fi a f lf ex w) = Raise e).
Proof.
  unfold ParallelLLM_new, ParallelLLM_init, super_init, bind, setattr,
    lift.
  cbn. split.
  - by intros ->.
  - intros base -> -> ->. done.
Qed.

(** A failure of the fan-in side fails the call with that failure, in
    every operation and on both paths; the log shows the fan-out and the
    one fan-in invocation, with no second attempt and no other
    strategy tried. *)
Theorem fan_in_failure_fails_call mode m p (st : St) fo responses w fn e w' :
  self_attrs st !! "fan_out" = Some fo ->
  fan_out_generate fo m p (world st) = (Ok responses, w) ->
  self_attrs st !! "fan_in_fn" = Some fn ->
  (truthy fn = true ->
   call_await fn responses w = (Raise e, w') ->
   run mode m p st =
     (Raise e,
      mkState (self_attrs st) w'
        (calls st ++ [FanOutGenerate fo m p; FanInFnCall fn responses]))) /\
  (forall fi,
     truthy fn = false ->
     self_attrs st !! "fan_in" = Some fi ->
     aggregator_call mode fi responses p w = (Raise e, w') ->
     run mode m p st =
       (Raise e,
        mkState (self_attrs st) w'
          (calls st ++
             [FanOutGenerate fo m p;
              aggregator_event mode fi responses p]))).
Proof.
  intros Hfo Hout Hfn. split.
  - intros Ht Hc.
    rewrite (run_reduce mode m p st fo responses w fn (Raise e) w')
      by done.
    by destruct mode.
  - intros fi Ht Hfi Hc.
    by rewrite (run_aggregate mode m p st fo responses w fn fi (Raise e) w').
Qed.

(** With a reduction function, [generate_str] is [generate] followed by
    [str]: the same state is reached, a failure of [generate] is the
    failure of [generate_str], and a value [generate] returns comes back
    as its text, or as the failure of [str] on it. *)
Theorem generate_str_is_str_of_generate
    m uh mi mo ss mt pt (st : St) fn :
  self_attrs st !! "fan_in_fn" = Some fn ->
  truthy fn = true ->
  generate_str m uh mi mo ss mt pt st =
    match generate m uh mi mo ss mt pt st with
    | (Ok raw, st') =>
        (match builtin_str raw with
         | Ok s => Ok (PyStr s)
         | Raise e => Raise e
         end, st')
    | (Raise e, st') => (Raise e, st')
    end.
Proof.
  intros Hfn Ht.
  set (p := mkGenParams uh mi mo ss mt pt).
  change (generate_str m uh mi mo ss mt pt st) with (run Text m p st).
  change (generate m uh mi mo ss mt pt st) with (run Raw m p st).
  destruct (self_attrs st !! "fan_out") as [fo|] eqn:Hfo.
  2: { by rewrite !run_no_fan_out. }
  destruct (fan_out_generate fo m p (world st)) as [[responses|e] w] eqn:Hout.
  2: { by rewrite !(run_dispatch_raise _ m p st fo e w). }
  destruct (call_await fn responses w) as [r w'] eqn:Hcall.
  rewrite !(run_reduce _ m p st fo responses w fn r w') by done.
  by destruct r.
Qed.

(** ** Sequences of calls *)

Lemma run_extends mode m p (st : St) :
  calls (snd (run mode m p st)) =
  calls st ++ new_calls st (snd (run mode m p st)).
Proof.
  destruct (run_course mode m p st); cbn [snd];
    rewrite ?new_calls_app, ?new_calls_refl, ?app_nil_r; done.
Qed.

Lemma run_calls_extends cs (st : St) :
  calls (run_calls cs st) = calls st ++ new_calls st (run_calls cs st).
Proof.
  revert st. induction cs as [|c cs IH]; intros st; cbn [run_calls].
  - by rewrite new_calls_refl, app_nil_r.
  - set (st1 := snd (run _ _ _ st)).
    unfold new_calls at 1. rewrite (IH st1).
    pose proof (run_extends (call_mode c) (call_message c)
                  (call_params c) st) as H1. fold st1 in H1.
    rewrite H1, <- app_assoc, drop_app_length. done.
Qed.

Lemma new_calls_cons c cs (st : St) :
  let st1 := snd (run (call_mode c) (call_message c) (call_params c) st) in
  new_calls st (run_calls (c :: cs) st) =
  new_calls st st1 ++ new_calls st1 (run_calls cs st1).
Proof.
  intros st1. cbn [run_calls]. fold st1.
  unfold new_calls at 1. rewrite (run_calls_extends cs st1).
  pose proof (run_extends (call_mode c) (call_message c)
                (call_params c) st) as H1. fold st1 in H1.
  rewrite H1 at 1. rewrite <- app_assoc, drop_app_length. done.
Qed.

(** What one call adds, on an instance with a fan-out stage: one
    fan-out invocation, then at most one invocation of the fan-in
    side. *)
Lemma run_adds mode m p (st : St) fo :
  self_attrs st !! "fan_out" = Some fo ->
  exists rest,
    new_calls st (snd (run mode m p st)) = FanOutGenerate fo m p :: rest /\
    length rest <= 1 /\
    forall ev, ev ∈ rest -> is_fan_in ev = true.
Proof.
  intros Hfo.
  destruct (run_course mode m p st) as
    [ Hfo' | fo' e w Hfo' _ | fo' rs w Hfo' _ _
    | fo' rs w fn r w' Hfo' _ _ _ _
    | fo' rs w fn Hfo' _ _ _ _
    | fo' rs w fn fi r w' Hfo' _ _ _ _ _ ];
    rewrite Hfo in Hfo'; try done; injection Hfo' as <-;
    cbn [snd]; rewrite new_calls_app;
    eexists; (split; [reflexivity|]); (split; [cbn; lia|]);
    intros ev Hin;
    repeat (apply elem_of_cons in Hin as [->|Hin]);
    try (by apply elem_of_nil in Hin); try done.
  by destruct mode.
Qed.

Lemma filter_fan_out_of_fan_in (rest : list Event) :
  (forall ev, ev ∈ rest -> is_fan_in ev = true) ->
  filter (fun ev => is_fan_in ev = false) rest = [] /\
  filter (fun ev => is_fan_in ev = true) rest = rest.
Proof.
  induction rest as [|ev rest IH]; intros Hall; [done|].
  destruct IH as [IH1 IH2]; [intros ev' ?; apply Hall; by right|].
  assert (is_fan_in ev = true) as Hev by (apply Hall; by left).
  split.
  - rewrite filter_cons_False; [done|]. by rewrite Hev.
  - rewrite filter_cons_True by done. by rewrite IH2.
Qed.

(** Over any sequence of calls on an instance with a fan-out stage,
    failed calls included, the fan-out invocations in the log are
    exactly one per call, in call order, each with that call's message
    and parameters; and there are no more fan-in invocations than
    calls. *)
Theorem each_call_fans_out_once cs (st : St) fo :
  self_attrs st !! "fan_out" = Some fo ->
  let evs := new_calls st (run_calls cs st) in
  filter (fun ev => is_fan_in ev = false) evs =
    (fun c => FanOutGenerate fo (call_message c) (call_params c)) <$> cs /\
  length (filter (fun ev => is_fan_in ev = true) evs) <= length cs.
Proof.
  revert st. induction cs as [|c cs IH]; intros st Hfo evs; subst evs.
  - cbn [run_calls]. by rewrite new_calls_refl.
  - rewrite new_calls_cons. cbv zeta.
    set (st1 := snd (run _ _ _ st)).
    destruct (run_adds (call_mode c) (call_message c) (call_params c)
                st fo Hfo) as (rest & Hnew & Hlen & Hrest).
    fold st1 in Hnew. rewrite Hnew.
    destruct (filter_fan_out_of_fan_in rest Hrest) as [Hno Hall].
    destruct (IH st1) as [IH1 IH2].
    { subst st1. by rewrite run_attrs. }
    rewrite !filter_app. split.
    + rewrite filter_cons_True by done. rewrite Hno, IH1. done.
    + rewrite filter_cons_False by done. rewrite Hall, length_app.
      cbn [length]. lia.
Qed.

Lemma new_quiet fi a f lf ex w (st : St) :
  ParallelLLM_new fi a f lf ex w = (Ok tt, st) ->
  world st = w /\ calls st = [].
Proof.
  unfold ParallelLLM_new, ParallelLLM_init, super_init, bind, setattr,
    lift.
  cbn.
  destruct (AugmentedLLM_init ex ∅) as [base|]; cbn; [|done].
  destruct (is_callable fi); cbn.
  - destruct (FanOut_new a f lf ex) as [fo|]; cbn; [|done].
    by intros [= <-].
  - destruct (FanInLLM_new fi lf ex); cbn; [|done].
    destruct (FanOut_new a f lf ex) as [fo|]; cbn; [|done].
    by intros [= <-].
Qed.

(** With [fan_in_fn] bound to a true value, what a call adds to the log
    never is an invocation of an aggregator unit, and every fan-in
    invocation is a call of that value. *)
Lemma run_reduces_only mode m p (st : St) fn ev :
  self_attrs st !! "fan_in_fn" = Some fn -> truthy fn = true ->
  ev ∈ new_calls st (snd (run mode m p st)) ->
  is_aggregator ev = false /\
  (is_fan_in ev = true -> exists rs, ev = FanInFnCall fn rs).
Proof.
  intros Hfn Ht.
  destruct (run_course mode m p st) as
    [ _ | fo e w _ _ | fo rs w _ _ Hfn'
    | fo rs w fn' r w' _ _ Hfn' _ _
    | fo rs w fn' _ _ Hfn' Ht' _
    | fo rs w fn' fi r w' _ _ Hfn' Ht' _ _ ];
    cbn [snd]; rewrite ?new_calls_app, ?new_calls_refl; intros Hin;
    try congruence;
    repeat (apply elem_of_cons in Hin as [->|Hin]);
    try (by apply elem_of_nil in Hin);
    try (split; [done|]; by intros [=]).
  split; [done|]. intros _. exists rs. congruence.
Qed.

Lemma run_calls_reduce_only cs (st : St) fn ev :
  self_attrs st !! "fan_in_fn" = Some fn -> truthy fn = true ->
  ev ∈ new_calls st (run_calls cs st) ->
  is_aggregator ev = false /\
  (is_fan_in ev = true -> exists rs, ev = FanInFnCall fn rs).
Proof.
  intros Hfn Ht. revert st Hfn.
  induction cs as [|c cs IH]; intros st Hfn.
  - cbn [run_calls]. rewrite new_calls_refl. by intros ?%elem_of_nil.
  - rewrite new_calls_cons. cbv zeta.
    intros [Hin|Hin]%elem_of_app.
    + by eapply run_reduces_only.
    + eapply IH; [|done]. by rewrite run_attrs.
Qed.

(** An instance built with a callable that is true never invokes an
    aggregator unit, in any sequence of calls in any mix of the three
    operations: every fan-in invocation in its log is a call of the
    very function the constructor was given. *)
Theorem function_instance_never_aggregates fi a f lf ex w (st : St) :
  is_callable fi = true -> truthy fi = true ->
  ParallelLLM_new fi a f lf ex w = (Ok tt, st) ->
  forall cs ev,
    ev ∈ calls (run_calls cs st) ->
    is_aggregator ev = false /\
    (is_fan_in ev = true -> exists rs, ev = FanInFnCall fi rs).
Proof.
  intros Hc Ht Hnew cs ev.
  destruct (new_callable _ _ _ _ _ _ _ Hc Hnew) as [Hfn _].
  destruct (new_quiet _ _ _ _ _ _ _ Hnew) as [_ Hcalls].
  rewrite run_calls_extends, Hcalls, app_nil_l.
  by apply run_calls_reduce_only.
Qed.

End ParallelLLM_more.

(** For a callable fan-in value the constructor does not build a
    [FanInLLM]: with the same base class, it ends in the same result and
    the same state whatever the [FanInLLM] constructor would do, and
    [fan_in] stays as the base class left it. *)
Theorem callable_fan_in_builds_no_FanInLLM {W} (C1 C2 : Collaborators W)
    fi a f lf ex (w : W) :
  is_callable fi = true ->
  @AugmentedLLM_init W C1 ex ∅ = @AugmentedLLM_init W C2 ex ∅ ->
  @ParallelLLM_new W C1 fi a f lf ex w = @ParallelLLM_new W C2 fi a f lf ex w
  /\
  forall base st,
    @AugmentedLLM_init W C1 ex ∅ = Ok base ->
    @ParallelLLM_new W C1 fi a f lf ex w = (Ok tt, st) ->
    self_attrs st !! "fan_in" = base !! "fan_in".
Proof.
  intros Hc Hbase.
  unfold ParallelLLM_new, ParallelLLM_init, super_init, bind, setattr,
    lift.
  cbn. rewrite <- Hbase, Hc. split; [done|].
  intros base st ->. cbn.
  destruct (FanOut_new a f lf ex); cbn; [|done].
  intros [= <-]. cbn. by simplify_map_eq.
Qed.

(** * The intent classifier *)

Section Classifier_facts.

Import IntentClassifier.

Context {World : Type} `{K : Classifier World}.

(** The constructor creates the LLM first, once, with the fixed system
    instruction, whatever the intents and the classification
    instruction; if that fails, the failure is the constructor's and the
    base class is not reached; otherwise the base class is initialised
    next, with that LLM and the caller's intents and classification
    instruction as they came, and its outcome is the constructor's. *)
Theorem classifier_init_creates_llm_first intents ci self (s : Env World) :
  exists r w rest,
    OpenAIAugmentedLLM_new CLASSIFIER_SYSTEM_INSTRUCTION (ext s) = (r, w) /\
    log (snd (init intents ci self s)) =
      log s ++ NewOpenAILLM CLASSIFIER_SYSTEM_INSTRUCTION :: rest /\
    match r with
    | Raise e =>
        rest = [] /\ init intents ci self s = (Raise e, mkEnv w (log s ++
          [NewOpenAILLM CLASSIFIER_SYSTEM_INSTRUCTION]))
    | Ok llm =>
        rest = [BaseInit llm intents ci] /\
        fst (init intents ci self s) =
          fst (LLMIntentClassifier_init llm intents ci self w) /\
        ext (snd (init intents ci self s)) =
          snd (LLMIntentClassifier_init llm intents ci self w)
    end.
Proof.
  unfold init, logged.
  destruct (OpenAIAugmentedLLM_new _ (ext s)) as [[llm|e] w] eqn:Hllm;
    cbn [ext log].
  - exists (Ok llm), w, [BaseInit llm intents ci].
    destruct (LLMIntentClassifier_init llm intents ci self w) as [r' w'].
    cbn. by rewrite <- app_assoc.
  - exists (Raise e), w, []. done.
Qed.

(** [create] gives an instance exactly when the LLM was created, the
    base class initialised and then [initialize] went through, each on
    what the one before left; the instance is the one [initialize]
    left, and the log gained those three invocations, in that order,
    and nothing else. *)
Theorem classifier_create_returns_initialized
    intents ci (s s' : Env World) instance :
  create intents ci s = (Ok instance, s') <->
  exists llm w1 built w2,
    OpenAIAugmentedLLM_new CLASSIFIER_SYSTEM_INSTRUCTION (ext s)
      = (Ok llm, w1) /\
    LLMIntentClassifier_init llm intents ci ∅ w1 = (Ok built, w2) /\
    initialize built w2 = (Ok instance, ext s') /\
    log s' =
      log s ++ [NewOpenAILLM CLASSIFIER_SYSTEM_INSTRUCTION;
                BaseInit llm intents ci; Initialize built].
Proof.
  unfold create, init, logged. split.
  - destruct (OpenAIAugmentedLLM_new _ (ext s)) as [[llm|e] w1]; [|done].
    cbn [ext log].
    destruct (LLMIntentClassifier_init llm intents ci ∅ w1)
      as [[built|e] w2] eqn:Hb; [|done].
    cbn [ext log].
    destruct (initialize built w2) as [[instance'|e] w3] eqn:Hi; [|done].
    intros [= <- <-]. exists llm, w1, built, w2. cbn.
    by rewrite <- !app_assoc.
  - intros (llm & w1 & built & w2 & -> & Hb & Hi & Hlog).
    cbn [ext log]. rewrite Hb. cbn [ext log].
    destruct s' as [w' l']. cbn in Hi, Hlog. rewrite Hi, Hlog.
    by rewrite <- !app_assoc.
Qed.

(** [create] fails with the constructor's failure, without invoking
    [initialize], or else with the failure of [initialize]. *)
Theorem classifier_create_fails intents ci (s : Env World) e :
  (forall s1,
     init intents ci ∅ s = (Raise e, s1) ->
     create intents ci s = (Raise e, s1)) /\
  (forall built s1 w,
     init intents ci ∅ s = (Ok built, s1) ->
     initialize built (ext s1) = (Raise e, w) ->
     create intents ci s =
       (Raise e, mkEnv w (log s1 ++ [Initialize built]))).
Proof.
  unfold create, logged. split.
  - by intros s1 ->.
  - intros built s1 w -> ->. done.
Qed.

End Classifier_facts.

Section ParallelLLM_edges.

Context {World : Type} `{C : Collaborators World}.

(** The original message goes to the fan-out stage only.  Two messages
    on which the fan-out stage does the same lead to the same result,
    the same world and the same fan-in invocation: the fan-in side sees
    the responses, never the message. *)
Theorem fan_in_never_sees_message mode m1 m2 p (st : State World) fo :
  self_attrs st !! "fan_out" = Some fo ->
  fan_out_generate fo m1 p (world st) = fan_out_generate fo m2 p (world st) ->
  fst (run mode m1 p st) = fst (run mode m2 p st) /\
  world (snd (run mode m1 p st)) = world (snd (run mode m2 p st)) /\
  tail (new_calls st (snd (run mode m1 p st))) =
  tail (new_calls st (snd (run mode m2 p st))).
Proof.
  intros Hfo Heq.
  destruct (fan_out_generate fo m2 p (world st)) as [[responses|e] w] eqn:H2.
  2: { rewrite (run_dispatch_raise mode m1 p st fo e w),
         (run_dispatch_raise mode m2 p st fo e w) by done.
       cbn [fst snd world]. by rewrite !new_calls_app. }
  destruct (self_attrs st !! "fan_in_fn") as [fn|] eqn:Hfn.
  2: { rewrite (run_no_fan_in_fn mode m1 p st fo responses w),
         (run_no_fan_in_fn mode m2 p st fo responses w) by done.
       cbn [fst snd world]. by rewrite !new_calls_app. }
  destruct (truthy fn) eqn:Ht.
  - destruct (call_await fn responses w) as [r w'] eqn:Hcall.
    rewrite (run_reduce mode m1 p st fo responses w fn r w'),
      (run_reduce mode m2 p st fo responses w fn r w') by done.
    cbn [fst snd world]. by rewrite !new_calls_app.
  - destruct (self_attrs st !! "fan_in") as [fi|] eqn:Hfi.
    + destruct (aggregator_call mode fi responses p w) as [r w'] eqn:Hcall.
      rewrite (run_aggregate mode m1 p st fo responses w fn fi r w'),
        (run_aggregate mode m2 p st fo responses w fn fi r w') by done.
      cbn [fst snd world]. by rewrite !new_calls_app.
    + rewrite (run_no_fan_in mode m1 p st fo responses w fn),
        (run_no_fan_in mode m2 p st fo responses w fn) by done.
      cbn [fst snd world]. by rewrite !new_calls_app.
Qed.

(** Which side combines is decided at each call by the truth value of
    [fan_in_fn].  An instance built with a callable whose truth value
    is false, on a base class that binds no [fan_in], stores the
    callable and yet never calls it: every call whose fan-out returns
    raises [AttributeError] for [fan_in], with the fan-out invocation as
    its only entry in the log. *)
Theorem falsy_callable_is_skipped fi a f lf ex w0 (st : State World) base :
  is_callable fi = true -> truthy fi = false ->
  AugmentedLLM_init ex ∅ = Ok base ->
  base !! "fan_in" = None ->
  ParallelLLM_new fi a f lf ex w0 = (Ok tt, st) ->
  self_attrs st !! "fan_in_fn" = Some fi /\
  forall cs mode m p fo responses w,
    let st' := run_calls cs st in
    self_attrs st' !! "fan_out" = Some fo ->
    fan_out_generate fo m p (world st') = (Ok responses, w) ->
    run mode m p st' =
      (Raise (AttributeError "fan_in"),
       mkState (self_attrs st') w (calls st' ++ [FanOutGenerate fo m p])).
Proof.
  intros Hc Ht Hbase Hnone Hnew.
  destruct (new_callable _ _ _ _ _ _ _ Hc Hnew) as [Hfn _].
  split; [done|].
  intros cs mode m p fo responses w st' Hfo Hout.
  apply (run_no_fan_in mode m p st' fo responses w fi Hfo Hout);
    subst st'; rewrite ?run_calls_attrs; try done.
  revert Hnew.
  unfold ParallelLLM_new, ParallelLLM_init, super_init, bind, setattr,
    lift.
  cbn. rewrite Hbase, Hc. cbn.
  destruct (FanOut_new a f lf ex); cbn; [|done].
  intros [= <-]. cbn. by simplify_map_eq.
Qed.

End ParallelLLM_edges.

(** ** The further properties at work *)

Lemma new_stores_arguments_witness :
  self_attrs joiner !! "fan_in_agent" = Some (PyFunc "join_bar") /\
  self_attrs joiner !! "fan_out_functions" = Some section_units.
Proof.
  destruct (new_stores_arguments (C := demo) (PyFunc "join_bar") PyNone
              section_units PyNone PyNone [2; 0; 1] joiner)
    as (_ & Hfi & _ & Hf & _).
  - vm_compute. reflexivity.
  - split; [exact Hfi | exact Hf].
Defined.

Lemma callable_fan_in_builds_no_FanInLLM_witness :
  ParallelLLM_new (C := demo) (PyFunc "count") voters PyNone PyNone PyNone
    [1; 0] =
  ParallelLLM_new (C := without_FanInLLM demo TypeError) (PyFunc "count")
    voters PyNone PyNone PyNone [1; 0].
Proof.
  apply (callable_fan_in_builds_no_FanInLLM demo
           (without_FanInLLM demo TypeError)); reflexivity.
Defined.

Lemma new_fails_first_witness :
  fst (ParallelLLM_new (C := without_FanInLLM demo TypeError) an_agent
         PyNone PyNone PyNone PyNone []) = Raise TypeError.
Proof.
  apply (proj2 (new_fails_first (C := without_FanInLLM demo TypeError)
                  an_agent PyNone PyNone PyNone PyNone [] TypeError)
           (<["history" := PyList []]> (<["executor" := PyNone]> ∅)));
    reflexivity.
Defined.

Lemma fan_in_failure_fails_call_witness :
  let st := new_state (PyFunc "nope") PyNone section_units [] in
  run Text X default_params st =
    (Raise TypeError,
     mkState (self_attrs st) []
       (calls st ++
          [FanOutGenerate (PyFanOut PyNone section_units PyNone PyNone) X
             default_params;
           FanInFnCall (PyFunc "nope")
             [PyStr "A"; PyStr "B"; PyStr "C"]])).
Proof.
  intros st.
  apply (proj1 (fan_in_failure_fails_call (C := demo) Text X
                  default_params st
                  (PyFanOut PyNone section_units PyNone PyNone)
                  [PyStr "A"; PyStr "B"; PyStr "C"] [] (PyFunc "nope")
                  TypeError [] eq_refl eq_refl eq_refl));
    reflexivity.
Defined.

Lemma generate_str_is_str_of_generate_witness :
  generate_str X true 10 None None 2048 true counter =
    match generate X true 10 None None 2048 true counter with
    | (Ok raw, st') =>
        (match demo_str raw with
         | Ok s => Ok (PyStr s)
         | Raise e => Raise e
         end, st')
    | (Raise e, st') => (Raise e, st')
    end.
Proof.
  apply (generate_str_is_str_of_generate (C := demo)
           X true 10 None None 2048 true counter (PyFunc "count"));
    vm_compute; reflexivity.
Defined.

Lemma each_call_fans_out_once_witness :
  let cs := [mkCall Text X default_params; mkCall Raw X default_params] in
  filter (fun ev => is_fan_in ev = false)
    (new_calls broken (run_calls cs broken)) =
  (fun c =>
     FanOutGenerate
       (PyFanOut (PyList [voter 0]) (PyList [PyFunc "boom"]) PyNone PyNone)
       (call_message c) (call_params c)) <$> cs.
Proof.
  intros cs.
  apply (each_call_fans_out_once (C := demo) cs broken).
  vm_compute. reflexivity.
Defined.

Lemma function_instance_never_aggregates_witness :
  is_aggregator
    (FanInFnCall (PyFunc "join_bar") [PyStr "A"; PyStr "B"; PyStr "C"])
  = false /\
  exists rs,
    FanInFnCall (PyFunc "join_bar") [PyStr "A"; PyStr "B"; PyStr "C"] =
    FanInFnCall (PyFunc "join_bar") rs.
Proof.
  destruct (function_instance_never_aggregates (C := demo)
              (PyFunc "join_bar") PyNone section_units PyNone PyNone
              [2; 0; 1] joiner eq_refl eq_refl)
    with (cs := [mkCall Text X default_params])
         (ev := FanInFnCall (PyFunc "join_bar")
                  [PyStr "A"; PyStr "B"; PyStr "C"])
    as [Hagg Hfn].
  - vm_compute. reflexivity.
  - apply list_elem_of_In. vm_compute. right. left. reflexivity.
  - split; [exact Hagg|]. apply Hfn. reflexivity.
Defined.

Lemma fan_in_never_sees_message_witness :
  fst (run Text X default_params joiner) =
  fst (run Text (PyStr "Y") default_params joiner).
Proof.
  apply (fan_in_never_sees_message (C := demo) Text X (PyStr "Y")
           default_params joiner
           (PyFanOut PyNone section_units PyNone PyNone));
    vm_compute; reflexivity.
Defined.

Lemma falsy_callable_is_skipped_witness :
  let st := new_state falsy_callable PyNone section_units [] in
  run Raw X default_params st =
    (Raise (AttributeError "fan_in"),
     mkState (self_attrs st) []
       (calls st ++
          [FanOutGenerate (PyFanOut PyNone section_units PyNone PyNone) X
             default_params])).
Proof.
  intros st.
  destruct (falsy_callable_is_skipped (C := demo) falsy_callable PyNone
              section_units PyNone PyNone [] st
              (<["history" := PyList []]> (<["executor" := PyNone]> ∅))
              eq_refl eq_refl eq_refl eq_refl eq_refl)
    as [_ Hrun].
  apply (Hrun [] Raw X default_params
           (PyFanOut PyNone section_units PyNone PyNone)
           [PyStr "A"; PyStr "B"; PyStr "C"] []); reflexivity.
Defined.

Lemma classifier_create_returns_initialized_witness :
  exists llm built,
    IntentClassifier.log
      (snd (IntentClassifier.create (K := IntentClassifier.demo_classifier)
              IntentClassifier.greet PyNone
              (IntentClassifier.mkEnv 0 []))) =
    [IntentClassifier.NewOpenAILLM
       IntentClassifier.CLASSIFIER_SYSTEM_INSTRUCTION;
     IntentClassifier.BaseInit llm IntentClassifier.greet PyNone;
     IntentClassifier.Initialize built].
Proof.
  destruct (IntentClassifier.create (K := IntentClassifier.demo_classifier)
              IntentClassifier.greet PyNone
              (IntentClassifier.mkEnv 0 [])) as [r s'] eqn:Hc.
  assert (exists instance, r = Ok instance) as [instance ->].
  { vm_compute in Hc. injection Hc as <- _. by eexists. }
  destruct (proj1 (classifier_create_returns_initialized
                     (K := IntentClassifier.demo_classifier)
                     IntentClassifier.greet PyNone
                     (IntentClassifier.mkEnv 0 []) s' instance) Hc)
    as (llm & w1 & built & w2 & _ & _ & _ & Hlog).
  exists llm, built. exact Hlog.
Defined.

Lemma classifier_create_fails_witness :
  IntentClassifier.create (K := IntentClassifier.demo_classifier)
    (PyList []) PyNone (IntentClassifier.mkEnv 0 []) =
    (Raise (UnitFailure 3),
     IntentClassifier.mkEnv 1
       [IntentClassifier.NewOpenAILLM
          IntentClassifier.CLASSIFIER_SYSTEM_INSTRUCTION;
        IntentClassifier.BaseInit
          (PyList [PyStr "OpenAIAugmentedLLM";
                   PyStr IntentClassifier.CLASSIFIER_SYSTEM_INSTRUCTION])
          (PyList []) PyNone]).
Proof.
  apply (proj1 (classifier_create_fails
                  (K := IntentClassifier.demo_classifier)
                  (PyList []) PyNone (IntentClassifier.mkEnv 0 [])
                  (UnitFailure 3))).
  reflexivity.
Defined.
